(** * Reports page: report builders, CSV serializer and export trigger

    A shallow embedding of [src/pages/Reports.tsx].

    - JavaScript numbers are IEEE-754 binary64 values: they are carried by the
      kernel's primitive [float]s, so the arithmetic of the report builders is
      the arithmetic the page runs.  The integer fields of a record
      ([quantity], [reorderLevel]) are carried as [Z]: comparing and
      subtracting two integers and then rounding once is what binary64 does
      on them; they enter the float arithmetic and the printing through
      [of_int].
    - [Number.prototype.toFixed] and [Number::toString] are written out over
      the exact value [m * 2^e] of a float.
    - Report rows are JavaScript object literals: lists of (key, value) pairs
      in property order.
    - The handlers run in a small state monad over a heap of arrays and a log
      of the effects the user can observe (toasts and downloads). *)

From Stdlib Require Import ZArith List String Ascii Bool Lia.
From Stdlib Require Import Floats.
Import ListNotations.

Local Open Scope string_scope.
Local Open Scope Z_scope.

(** ** Decimal digits *)

Module Digits.

Definition digit (d : Z) : ascii := ascii_of_nat (48 + Z.to_nat d).

Fixpoint digits_fuel (fuel : nat) (n : Z) (acc : string) : string :=
  match fuel with
  | O => acc
  | S fuel' =>
      let acc' := String (digit (n mod 10)) acc in
      if n <? 10 then acc' else digits_fuel fuel' (n / 10) acc'
  end.

(** The decimal representation of a non-negative integer, without leading
    zeros ("0" for zero). *)
Definition digits (n : Z) : string :=
  digits_fuel (S (Z.to_nat (Z.log2 n))) n "".

Definition is_digit (c : ascii) : bool :=
  let k := nat_of_ascii c in (48 <=? k)%nat && (k <=? 57)%nat.

Fixpoint all_digits (s : string) : bool :=
  match s with
  | EmptyString => true
  | String c s' => is_digit c && all_digits s'
  end.

Definition digit_val (c : ascii) : Z := Z.of_nat (nat_of_ascii c) - 48.

Fixpoint parse_digits_acc (s : string) (acc : Z) : option Z :=
  match s with
  | EmptyString => Some acc
  | String c s' =>
      if is_digit c then parse_digits_acc s' (10 * acc + digit_val c) else None
  end.

(** Reads a non-empty string of decimal digits. *)
Definition parse_digits (s : string) : option Z :=
  match s with
  | EmptyString => None
  | _ => parse_digits_acc s 0
  end.

Fixpoint zeros (n : nat) : string :=
  match n with
  | O => ""
  | S n' => String "0" (zeros n')
  end.

End Digits.

(** ** JavaScript numbers *)

Module Number.

Import Digits.

(** [ToNumber] of an integer: the nearest binary64 value. *)
Definition of_int (z : Z) : float :=
  SF2Prim (binary_normalize prec emax z 0 false).

(** *** Number.prototype.toFixed(2)

    For a finite [x] below [10^21] in magnitude, ECMAScript picks the integer
    [n] for which [n / 100 - x] is as close to zero as possible, the larger one
    when there are two.  With [x = m * 2^e] this is [floor (100 * x + 1/2)]. *)

Definition round_hundredths (m : positive) (e : Z) : Z :=
  if 0 <=? e then 100 * Zpos m * 2 ^ e
  else (200 * Zpos m + 2 ^ (- e)) / (2 * 2 ^ (- e)).

(** [10^21 <= m * 2^e] *)
Definition ge_1e21 (m : positive) (e : Z) : bool :=
  if 0 <=? e then 10 ^ 21 <=? Zpos m * 2 ^ e
  else 10 ^ 21 * 2 ^ (- e) <=? Zpos m.

(** The integer [n], counted in hundredths, printed with two decimals. *)
Definition fixed2_string (n : Z) : string :=
  digits (n / 100) ++ "." ++
  String (digit (n mod 100 / 10)) (String (digit (n mod 10)) "").

(** *** Number::toString (radix 10)

    The shortest decimal [s * 10^(n-k)] (with [k] digits) that reads back as
    the same binary64 value.  All comparisons are exact: the value and the two
    ends of its rounding interval are kept as integers over a common
    power-of-two denominator. *)

Record dyadic := { dnum : Z; dden : Z }.

(** [z * 2^e] *)
Definition mk_dyadic (z : Z) (e : Z) : dyadic :=
  if 0 <=? e then {| dnum := z * 2 ^ e; dden := 1 |}
  else {| dnum := z; dden := 2 ^ (- e) |}.

(** compares [s * 10^p] with [q] *)
Definition cmp_dec (s p : Z) (q : dyadic) : comparison :=
  if 0 <=? p then (s * 10 ^ p * dden q ?= dnum q)
  else (s * dden q ?= dnum q * 10 ^ (- p)).

(** [floor (q / 10^p)] *)
Definition floor_dec (q : dyadic) (p : Z) : Z :=
  if 0 <=? p then dnum q / (dden q * 10 ^ p)
  else (dnum q * 10 ^ (- p)) / dden q.

(** The decimal exponent [n] with [10^(n-1) <= q < 10^n], searched upwards. *)
Fixpoint magnitude_from (fuel : nat) (n : Z) (q : dyadic) : Z :=
  match fuel with
  | O => n
  | S fuel' =>
      match cmp_dec 1 n q with
      | Gt => n
      | _ => magnitude_from fuel' (n + 1) q
      end
  end.

Definition magnitude (q : dyadic) : Z := magnitude_from 640 (-324) q.

Record interval := { lo : dyadic; hi : dyadic; closed : bool }.

(** The reals that round to [m * 2^e] (to nearest, ties to even). *)
Definition rounding_interval (m : positive) (e : Z) : interval :=
  let boundary := (Zpos m =? 2 ^ 52) && (-1074 <? e) in
  {| lo := mk_dyadic (4 * Zpos m - (if boundary then 1 else 2)) (e - 2);
     hi := mk_dyadic (4 * Zpos m + 2) (e - 2);
     closed := Z.even (Zpos m) |}.

Definition inside (i : interval) (s p : Z) : bool :=
  match cmp_dec s p (lo i), cmp_dec s p (hi i) with
  | Gt, Lt => true
  | Eq, Lt | Gt, Eq => closed i
  | _, _ => false
  end.

(** Tries [k], [k+1], ... digits; returns the digits [s] and the exponent [n]. *)
Fixpoint shortest_from (fuel : nat) (k : Z) (x : dyadic) (i : interval)
    (n0 : Z) : Z * Z :=
  let p := n0 - k in
  let s_lo := floor_dec x p in
  let s_hi := s_lo + 1 in
  let pick s := if s =? 10 ^ k then (1, n0 + 1) else (s, n0) in
  match fuel with
  | O => (s_lo, n0)
  | S fuel' =>
      match inside i s_lo p, inside i s_hi p with
      | true, false => pick s_lo
      | false, true => pick s_hi
      | true, true =>
          (* both read back: the closer one, the even one at a tie *)
          match cmp_dec (2 * s_lo + 1) p
                  {| dnum := 2 * dnum x; dden := dden x |} with
          | Gt => pick s_lo
          | Lt => pick s_hi
          | Eq => if Z.even s_lo then pick s_lo else pick s_hi
          end
      | false, false => shortest_from fuel' (k + 1) x i n0
      end
  end.

Definition shortest (m : positive) (e : Z) : Z * Z :=
  let x := mk_dyadic (Zpos m) e in
  shortest_from 17 1 x (rounding_interval m e) (magnitude x).

Definition substring_from (n : nat) (s : string) : string :=
  substring n (String.length s - n) s.

(** The layout of the digits [ds] with decimal exponent [n]. *)
Definition layout (ds : string) (n : Z) : string :=
  let k := Z.of_nat (String.length ds) in
  if (k <=? n) && (n <=? 21) then ds ++ zeros (Z.to_nat (n - k))
  else if (0 <? n) && (n <=? 21) then
    substring 0 (Z.to_nat n) ds ++ "." ++ substring_from (Z.to_nat n) ds
  else if (-6 <? n) && (n <=? 0) then "0." ++ zeros (Z.to_nat (- n)) ++ ds
  else
    let mant :=
      if k =? 1 then ds
      else substring 0 1 ds ++ "." ++ substring_from 1 ds in
    mant ++ "e" ++ (if 0 <=? n - 1 then "+" else "-") ++ digits (Z.abs (n - 1)).

Definition finite_to_string (m : positive) (e : Z) : string :=
  let '(s, n) := shortest m e in layout (digits s) n.

Definition sign_string (s : bool) : string := if s then "-" else "".

Definition sf_to_string (x : spec_float) : string :=
  match x with
  | S754_nan => "NaN"
  | S754_zero _ => "0"
  | S754_infinity s => sign_string s ++ "Infinity"
  | S754_finite s m e => sign_string s ++ finite_to_string m e
  end.

Definition to_string (x : float) : string := sf_to_string (Prim2SF x).

Definition sf_toFixed2 (x : spec_float) : string :=
  match x with
  | S754_nan | S754_infinity _ => sf_to_string x
  | S754_zero _ => "0.00"
  | S754_finite s m e =>
      sign_string s ++
      (if ge_1e21 m e then finite_to_string m e
       else fixed2_string (round_hundredths m e))
  end.

Definition toFixed2 (x : float) : string := sf_toFixed2 (Prim2SF x).

End Number.

(** ** Strings: [Array.prototype.join] and [String.prototype.split] *)

Module Text.

Definition comma : ascii := ","%char.
Definition newline : ascii := "010"%char.
Definition letter_T : ascii := "T"%char.

Fixpoint join (sep : string) (l : list string) : string :=
  match l with
  | [] => ""
  | [x] => x
  | x :: rest => x ++ sep ++ join sep rest
  end.

(** [s.split(c)] for a one-character separator: the empty string splits into
    one empty piece. *)
Fixpoint split (c : ascii) (s : string) : list string :=
  match s with
  | EmptyString => [""]
  | String a s' =>
      if Ascii.eqb a c then "" :: split c s'
      else match split c s' with
           | piece :: rest => String a piece :: rest
           | [] => [String a ""]
           end
  end.

Fixpoint contains (c : ascii) (s : string) : bool :=
  match s with
  | EmptyString => false
  | String a s' => Ascii.eqb a c || contains c s'
  end.

(** [s] does not contain the character [c]. *)
Definition free (c : ascii) (s : string) : Prop := contains c s = false.

End Text.

(** ** Reading a two-decimal amount back

    Used to state what the printed amounts are worth: ["12.34"] is 1234
    hundredths. *)

Module Decimal.

Import Digits.

Definition dot : ascii := "."%char.
Definition minus : ascii := "-"%char.

Definition parse_unsigned_cents (s : string) : option Z :=
  match Text.split dot s with
  | [ip; String a (String b EmptyString)] =>
      match parse_digits ip with
      | Some i =>
          if is_digit a && is_digit b
          then Some (100 * i + 10 * digit_val a + digit_val b)
          else None
      | None => None
      end
  | _ => None
  end.

(** An optional minus sign, at least one digit, a dot and exactly two digits. *)
Definition parse_cents (s : string) : option Z :=
  match s with
  | EmptyString => None
  | String a r =>
      if Ascii.eqb a minus then option_map Z.opp (parse_unsigned_cents r)
      else parse_unsigned_cents s
  end.

Definition two_decimals (s : string) : bool :=
  match parse_cents s with Some _ => true | None => false end.

(** A finite number below [10^21] in magnitude: the range in which [toFixed]
    prints fixed-point digits. *)
Definition fixed_range (x : spec_float) : bool :=
  match x with
  | S754_zero _ => true
  | S754_finite _ m e => negb (Number.ge_1e21 m e)
  | _ => false
  end.

(** [N - 1/2 <= 100 * (m * 2^e) < N + 1/2] *)
Definition nearest_hundredth (m : positive) (e : Z) (N : Z) : Prop :=
  if 0 <=? e then N = 100 * Zpos m * 2 ^ e
  else (2 * N - 1) * 2 ^ (- e) <= 200 * Zpos m < (2 * N + 1) * 2 ^ (- e).

(** The amount in hundredths nearest to [x], with the sign of [x]. *)
Definition hundredths (x : spec_float) : Z :=
  match x with
  | S754_finite s m e => cond_Zopp s (Number.round_hundredths m e)
  | _ => 0
  end.

End Decimal.

(** ** Records of the data provider ([@/types]) *)

(** Modelled from the spec: the declaration of [Product] is not part of the
    page; the fields and their kinds are those of the data model (integer
    [quantity] and [reorderLevel], decimal [unitCost] and [sellingPrice],
    optional [supplier]). *)
Module Product.
Record t := {
  sku : string;
  name : string;
  categoryName : string;
  quantity : Z;
  unit : string;
  unitCost : float;
  sellingPrice : float;
  reorderLevel : Z;
  location : string;
  supplier : option string;
  status : string
}.
End Product.

(** Modelled from the spec: the declaration of [StockTransaction] is not part
    of the page either. *)
Module StockTransaction.
Record t := {
  transactionDate : string;
  productName : string;
  transactionType : string;
  quantity : Z;
  userName : string;
  reason : option string
}.
End StockTransaction.

(** ** Report rows *)

Inductive jsval :=
| JStr (s : string)
| JInt (z : Z)          (* a number holding an integer *)
| JNum (x : float).

(** [ToString], as [join] applies it to the elements of an array. *)
Definition to_str (v : jsval) : string :=
  match v with
  | JStr s => s
  | JInt z => Number.to_string (Number.of_int z)
  | JNum x => Number.to_string x
  end.

(** An object literal: its properties in iteration order. *)
Definition row := list (string * jsval).

Definition keys (r : row) : list string := map fst r.

(** [r[k]] *)
Fixpoint get (k : string) (r : row) : option jsval :=
  match r with
  | [] => None
  | (k', v) :: r' => if String.eqb k' k then Some v else get k r'
  end.

(** [r[k]] as [join] prints it: [undefined] gives the empty string. *)
Definition cell (r : row) (k : string) : string :=
  match get k r with
  | Some v => to_str v
  | None => ""
  end.

(** [s || d] on an optional string: the empty string is falsy too. *)
Definition or_default (s : option string) (d : string) : string :=
  match s with
  | Some EmptyString | None => d
  | Some s' => s'
  end.

(** ** Report Builder: the row of each report *)

Section Rows.

Import Number.
Local Open Scope float_scope.

Definition inventory_row (p : Product.t) : row :=
  [ ("SKU", JStr (Product.sku p));
    ("Name", JStr (Product.name p));
    ("Category", JStr (Product.categoryName p));
    ("Quantity", JInt (Product.quantity p));
    ("Unit", JStr (Product.unit p));
    ("Unit Cost", JNum (Product.unitCost p));
    ("Selling Price", JNum (Product.sellingPrice p));
    ("Total Value",
      JStr (toFixed2 (of_int (Product.quantity p) * Product.unitCost p)));
    ("Reorder Level", JInt (Product.reorderLevel p));
    ("Location", JStr (Product.location p));
    ("Status", JStr (Product.status p)) ].

(** [p.quantity <= p.reorderLevel && p.status === "Active"] *)
Definition is_low_stock (p : Product.t) : bool :=
  (Product.quantity p <=? Product.reorderLevel p)%Z
  && String.eqb (Product.status p) "Active".

Definition low_stock_row (p : Product.t) : row :=
  [ ("SKU", JStr (Product.sku p));
    ("Name", JStr (Product.name p));
    ("Category", JStr (Product.categoryName p));
    ("Current Quantity", JInt (Product.quantity p));
    ("Reorder Level", JInt (Product.reorderLevel p));
    ("Units Below Reorder",
      JInt (Product.reorderLevel p - Product.quantity p)%Z);
    ("Location", JStr (Product.location p));
    ("Supplier", JStr (or_default (Product.supplier p) "N/A")) ].

Definition transaction_row (toLocaleString : string -> string)
    (tx : StockTransaction.t) : row :=
  [ ("Date", JStr (toLocaleString (StockTransaction.transactionDate tx)));
    ("Product", JStr (StockTransaction.productName tx));
    ("Type", JStr (StockTransaction.transactionType tx));
    ("Quantity", JInt (StockTransaction.quantity tx));
    ("User", JStr (StockTransaction.userName tx));
    ("Reason", JStr (or_default (StockTransaction.reason tx) "N/A")) ].

Definition valuation_row (p : Product.t) : row :=
  [ ("SKU", JStr (Product.sku p));
    ("Name", JStr (Product.name p));
    ("Category", JStr (Product.categoryName p));
    ("Quantity", JInt (Product.quantity p));
    ("Unit Cost", JStr (toFixed2 (Product.unitCost p)));
    ("Stock Value",
      JStr (toFixed2 (of_int (Product.quantity p) * Product.unitCost p)));
    ("Potential Revenue",
      JStr (toFixed2 (of_int (Product.quantity p) * Product.sellingPrice p)));
    ("Potential Profit",
      JStr (toFixed2 (of_int (Product.quantity p)
                      * (Product.sellingPrice p - Product.unitCost p)))) ].

(** [products.reduce((sum, p) => sum + p.quantity * p.unitCost, 0)] *)
Definition totalValue (products : list Product.t) : float :=
  fold_left
    (fun sum p => sum + of_int (Product.quantity p) * Product.unitCost p)
    products 0.

Definition totalRevenue (products : list Product.t) : float :=
  fold_left
    (fun sum p => sum + of_int (Product.quantity p) * Product.sellingPrice p)
    products 0.

Definition totalProfit (products : list Product.t) : float :=
  totalRevenue products - totalValue products.

Definition total_row (products : list Product.t) : row :=
  [ ("SKU", JStr "TOTAL");
    ("Name", JStr "");
    ("Category", JStr "");
    ("Quantity", JInt 0);
    ("Unit Cost", JStr "");
    ("Stock Value", JStr (toFixed2 (totalValue products)));
    ("Potential Revenue", JStr (toFixed2 (totalRevenue products)));
    ("Potential Profit", JStr (toFixed2 (totalProfit products))) ].

End Rows.

(** ** CSV Serializer *)

Definition csv_line (headers : list string) (r : row) : string :=
  Text.join "," (map (cell r) headers).

(** The text built at lines 117-121 for a sequence whose first row is
    [first]. *)
Definition csvContent (first : row) (data : list row) : string :=
  let headers := keys first in
  Text.join (String Text.newline "")
    (Text.join "," headers :: map (csv_line headers) data).

(** ** Summary Aggregator *)

(** [products.filter((p) => p.quantity <= p.reorderLevel).length] *)
Definition lowStockItems (products : list Product.t) : nat :=
  List.length
    (filter (fun p => Product.quantity p <=? Product.reorderLevel p) products).

(** [products.filter((p) => p.status === "Active").length] *)
Definition activeProducts (products : list Product.t) : nat :=
  List.length
    (filter (fun p => String.eqb (Product.status p) "Active") products).

(** ** The page: heap, effects, handlers *)

(** What the user can observe.  [Download name mime content] stands for
    lines 123-129: a blob of type [mime] holding [content], offered under the
    file name [name] through a temporary link that is revoked at once. *)
Inductive event :=
| ToastError (msg : string)
| ToastSuccess (msg : string)
| Download (name : string) (mime : string) (content : string).

(** Arrays live in a heap; a reference is an index into it. *)
Inductive array :=
| Products (l : list Product.t)
| Transactions (l : list StockTransaction.t)
| Rows (l : list row).

Definition ref := nat.

Record world := { heap : list array; log : list event }.

(** The environment of a handler run: the clock reading
    [new Date().toISOString()] and the locale's [Date] formatting. *)
Record env := {
  now_iso : string;
  toLocaleString : string -> string
}.

(** The component's state: [useState] holds references to the two arrays
    fetched on mount. *)
Record page := { products : ref; transactions : ref }.

Definition M (A : Type) : Type := world -> option (A * world).

Definition ret {A} (a : A) : M A := fun w => Some (a, w).

Definition bind {A B} (m : M A) (f : A -> M B) : M B :=
  fun w => match m w with
           | Some (a, w') => f a w'
           | None => None
           end.

Notation "x <- m ;; k" := (bind m (fun x => k))
  (at level 61, m at next level, right associativity).
Notation "m ;;; k" := (bind m (fun _ => k))
  (at level 61, right associativity).

Definition fail {A} : M A := fun _ => None.

Definition deref (r : ref) : M array :=
  fun w => match nth_error (heap w) r with
           | Some a => Some (a, w)
           | None => None
           end.

(** A fresh array, as [map] and [filter] return one. *)
Definition alloc (a : array) : M ref :=
  fun w => Some (List.length (heap w),
                 {| heap := heap w ++ [a]; log := log w |}).

Fixpoint update {A} (l : list A) (i : nat) (x : A) : list A :=
  match l, i with
  | [], _ => []
  | _ :: l', O => x :: l'
  | y :: l', S i' => y :: update l' i' x
  end.

Definition store (r : ref) (a : array) : M unit :=
  fun w => Some (tt, {| heap := update (heap w) r a; log := log w |}).

Definition emit (e : event) : M unit :=
  fun w => Some (tt, {| heap := heap w; log := log w ++ [e] |}).

Definition read_products (r : ref) : M (list Product.t) :=
  a <- deref r ;;
  match a with Products l => ret l | _ => fail end.

Definition read_transactions (r : ref) : M (list StockTransaction.t) :=
  a <- deref r ;;
  match a with Transactions l => ret l | _ => fail end.

Definition read_rows (r : ref) : M (list row) :=
  a <- deref r ;;
  match a with Rows l => ret l | _ => fail end.

(** [report.push(x)]: in place, on the array [report] refers to. *)
Definition push (report : ref) (x : row) : M unit :=
  l <- read_rows report ;;
  store report (Rows (l ++ [x])).

(** [new Date().toISOString().split("T")[0]] *)
Definition date_part (e : env) : string :=
  hd "" (Text.split Text.letter_T (now_iso e)).

Definition downloadCSV (e : env) (data : ref) (filename : string) : M unit :=
  rows <- read_rows data ;;
  match rows with
  | [] => emit (ToastError "No data to export")
  | first :: _ =>
      let csv := csvContent first rows in
      emit (Download (filename ++ "_" ++ date_part e ++ ".csv") "text/csv" csv) ;;;
      emit (ToastSuccess "Report downloaded successfully")
  end.

(** Each handler first builds its report array, then hands it to
    [downloadCSV]. *)

Definition buildInventoryReport (pg : page) : M ref :=
  ps <- read_products (products pg) ;;
  alloc (Rows (map inventory_row ps)).

Definition generateInventoryReport (e : env) (pg : page) : M unit :=
  report <- buildInventoryReport pg ;;
  downloadCSV e report "inventory_report".

Definition buildLowStockReport (pg : page) : M ref :=
  ps <- read_products (products pg) ;;
  lowStock <- alloc (Products (filter is_low_stock ps)) ;;
  ls <- read_products lowStock ;;
  alloc (Rows (map low_stock_row ls)).

Definition generateLowStockReport (e : env) (pg : page) : M unit :=
  report <- buildLowStockReport pg ;;
  downloadCSV e report "low_stock_report".

Definition buildTransactionReport (e : env) (pg : page) : M ref :=
  txs <- read_transactions (transactions pg) ;;
  alloc (Rows (map (transaction_row (toLocaleString e)) txs)).

Definition generateTransactionReport (e : env) (pg : page) : M unit :=
  report <- buildTransactionReport e pg ;;
  downloadCSV e report "transaction_report".

Definition buildValuationReport (pg : page) : M ref :=
  ps <- read_products (products pg) ;;
  report <- alloc (Rows (map valuation_row ps)) ;;
  ps' <- read_products (products pg) ;;
  push report (total_row ps') ;;;
  ret report.

Definition generateValuationReport (e : env) (pg : page) : M unit :=
  report <- buildValuationReport pg ;;
  downloadCSV e report "valuation_report".

(** The four entries of the [reports] table. *)
Inductive report_kind := Inventory | LowStock | TransactionHistory | Valuation.

Definition report_id (k : report_kind) : string :=
  match k with
  | Inventory => "inventory_report"
  | LowStock => "low_stock_report"
  | TransactionHistory => "transaction_report"
  | Valuation => "valuation_report"
  end.

Definition action (k : report_kind) (e : env) (pg : page) : M unit :=
  match k with
  | Inventory => generateInventoryReport e pg
  | LowStock => generateLowStockReport e pg
  | TransactionHistory => generateTransactionReport e pg
  | Valuation => generateValuationReport e pg
  end.

(** The click handler of "Generate End of Day Report". *)
Definition endOfDay (e : env) (pg : page) : M unit :=
  generateInventoryReport e pg ;;;
  generateLowStockReport e pg ;;;
  emit (ToastSuccess "End of Day reports generated").

(** The page after mount: the two fetched arrays and nothing else. *)
Definition mounted (ps : list Product.t) (txs : list StockTransaction.t)
    : page * world :=
  ({| products := 0%nat; transactions := 1%nat |},
   {| heap := [Products ps; Transactions txs]; log := [] |}).

(** The effects of [downloadCSV] on a given row sequence. *)
Definition export_events (e : env) (rows : list row) (filename : string)
    : list event :=
  match rows with
  | [] => [ToastError "No data to export"]
  | first :: _ =>
      [ Download (filename ++ "_" ++ date_part e ++ ".csv") "text/csv"
          (csvContent first rows);
        ToastSuccess "Report downloaded successfully" ]
  end.

(** The product and transaction arrays the page holds in a world. *)
Definition holds (pg : page) (w : world)
    (ps : list Product.t) (txs : list StockTransaction.t) : Prop :=
  nth_error (heap w) (products pg) = Some (Products ps) /\
  nth_error (heap w) (transactions pg) = Some (Transactions txs).

(** The row sequence a report hands to [downloadCSV], and the arrays its
    handler allocates on the way. *)
Definition report_rows (k : report_kind) (e : env)
    (ps : list Product.t) (txs : list StockTransaction.t) : list row :=
  match k with
  | Inventory => map inventory_row ps
  | LowStock => map low_stock_row (filter is_low_stock ps)
  | TransactionHistory => map (transaction_row (toLocaleString e)) txs
  | Valuation => (map valuation_row ps ++ [total_row ps])%list
  end.

Definition allocated (k : report_kind) (e : env)
    (ps : list Product.t) (txs : list StockTransaction.t) : list array :=
  match k with
  | LowStock =>
      [Products (filter is_low_stock ps); Rows (report_rows k e ps txs)]
  | _ => [Rows (report_rows k e ps txs)]
  end.

(** Splitting the text on newlines, then each line on commas. *)
Definition parse_csv (text : string) : list (list string) :=
  map (Text.split Text.comma) (Text.split Text.newline text).

(** Running a builder in [w] succeeds and leaves [rows] in the array it
    returns. *)
Definition built (m : M ref) (w : world) (rows : list row) : Prop :=
  exists r w', m w = Some (r, w') /\ nth_error (heap w') r = Some (Rows rows).

(** ** The reading of the report columns used in the statements *)

(** The products the low-stock report lists. *)
Definition low_stock (p : Product.t) : Prop :=
  Product.status p = "Active" /\ Product.quantity p <= Product.reorderLevel p.

(** [row] is the low-stock row of [p]. *)
Definition low_stock_row_of (p : Product.t) (r : row) : Prop :=
  let below := Product.reorderLevel p - Product.quantity p in
  low_stock p /\
  get "SKU" r = Some (JStr (Product.sku p)) /\
  get "Units Below Reorder" r = Some (JInt below) /\
  (below = 0 <-> Product.quantity p = Product.reorderLevel p) /\
  (Product.quantity p <> Product.reorderLevel p -> 0 < below) /\
  ((Product.supplier p = None \/ Product.supplier p = Some "") ->
   get "Supplier" r = Some (JStr "N/A")) /\
  (forall s, Product.supplier p = Some s -> s <> "" ->
   get "Supplier" r = Some (JStr s)).

(** The Supplier column as C1 words it: the product's supplier, or "N/A" when
    there is none. *)
Definition supplier_as_stated (p : Product.t) : string :=
  match Product.supplier p with
  | Some s => s
  | None => "N/A"
  end.

(** A low-stock product whose supplier is the empty string. *)
Definition blank_supplier : Product.t :=
  {| Product.sku := "B7"; Product.name := "Hinge";
     Product.categoryName := "Hardware"; Product.quantity := 2;
     Product.unit := "pcs"; Product.unitCost := 4; Product.sellingPrice := 6;
     Product.reorderLevel := 5; Product.location := "Aisle 3";
     Product.supplier := Some ""; Product.status := "Active" |}.

(** The amount a column holds, in hundredths. *)
Definition cents_at (key : string) (r : row) : option Z :=
  match get key r with
  | Some (JStr s) => Decimal.parse_cents s
  | _ => None
  end.

Fixpoint sum_cents (key : string) (rows : list row) : option Z :=
  match rows with
  | [] => Some 0
  | r :: rest =>
      match cents_at key r, sum_cents key rest with
      | Some a, Some b => Some (a + b)
      | _, _ => None
      end
  end.

(** [text] is a two-decimal amount, the nearest one to [x] (the larger at a
    tie in magnitude). *)
Definition amount_of (x : float) (text : string) : Prop :=
  match Prim2SF x with
  | S754_zero _ => Decimal.parse_cents text = Some 0
  | S754_finite s m e =>
      exists N, Decimal.parse_cents text = Some (cond_Zopp s N) /\
                Decimal.nearest_hundredth m e N
  | _ => False
  end.

(** [p.quantity * p.unitCost] and [p.quantity * p.sellingPrice] *)
Definition stock_value (p : Product.t) : float :=
  (Number.of_int (Product.quantity p) * Product.unitCost p)%float.

Definition potential_revenue (p : Product.t) : float :=
  (Number.of_int (Product.quantity p) * Product.sellingPrice p)%float.

(** Summation from the left, starting at 0, as [reduce] runs it. *)
Definition sum_float (l : list float) : float :=
  fold_left PrimFloat.add l 0%float.

(** [r] is the inventory row of [p]. *)
Definition inventory_row_of (p : Product.t) (r : row) : Prop :=
  get "SKU" r = Some (JStr (Product.sku p)) /\
  get "Name" r = Some (JStr (Product.name p)) /\
  get "Quantity" r = Some (JInt (Product.quantity p)) /\
  get "Total Value" r = Some (JStr (Number.toFixed2 (stock_value p))) /\
  (Decimal.fixed_range (Prim2SF (stock_value p)) = true ->
   Decimal.two_decimals (Number.toFixed2 (stock_value p)) = true /\
   amount_of (stock_value p) (Number.toFixed2 (stock_value p))).

(** [r] is the valuation row of [p]. *)
Definition valuation_row_of (p : Product.t) (r : row) : Prop :=
  get "SKU" r = Some (JStr (Product.sku p)) /\
  get "Quantity" r = Some (JInt (Product.quantity p)) /\
  get "Unit Cost" r = Some (JStr (Number.toFixed2 (Product.unitCost p))) /\
  get "Stock Value" r = Some (JStr (Number.toFixed2 (stock_value p))) /\
  get "Potential Revenue" r =
    Some (JStr (Number.toFixed2 (potential_revenue p))) /\
  get "Potential Profit" r =
    Some (JStr (Number.toFixed2
                  (Number.of_int (Product.quantity p)
                   * (Product.sellingPrice p - Product.unitCost p))%float)).

(** [r] is the TOTAL row over [ps]: the sums are taken over the products'
    unrounded values and rounded once. *)
Definition valuation_total_of (ps : list Product.t) (r : row) : Prop :=
  let value := sum_float (map stock_value ps) in
  let revenue := sum_float (map potential_revenue ps) in
  get "SKU" r = Some (JStr "TOTAL") /\
  get "Name" r = Some (JStr "") /\
  get "Category" r = Some (JStr "") /\
  get "Unit Cost" r = Some (JStr "") /\
  get "Quantity" r = Some (JInt 0) /\
  get "Stock Value" r = Some (JStr (Number.toFixed2 value)) /\
  get "Potential Revenue" r = Some (JStr (Number.toFixed2 revenue)) /\
  get "Potential Profit" r =
    Some (JStr (Number.toFixed2 (revenue - value)%float)) /\
  (Decimal.fixed_range (Prim2SF value) = true ->
   amount_of value (Number.toFixed2 value)).

Definition priced (q : Z) (cost price : float) : Product.t :=
  {| Product.sku := "P1"; Product.name := "Washer";
     Product.categoryName := "Hardware"; Product.quantity := q;
     Product.unit := "pcs"; Product.unitCost := cost;
     Product.sellingPrice := price; Product.reorderLevel := 10;
     Product.location := "Aisle 1"; Product.supplier := Some "Acme";
     Product.status := "Active" |}.

(** Three products whose amounts do not fall on whole cents. *)
Definition fractional_prices : list Product.t :=
  [ priced 1 1.0625 1.234375; priced 1 1.0625 1.5; priced 1 1.0625 1.5 ].

(** A product whose stock value reaches [10^21]. *)
Definition huge_cost : Product.t := priced 1 1e21 2e21.

(** ** Events and file names used in the statements *)

(** The text of every file in a run of events. *)
Fixpoint contents (evs : list event) : list string :=
  match evs with
  | [] => []
  | Download _ _ content :: rest => content :: contents rest
  | _ :: rest => contents rest
  end.




(** Products at or below their reorder level that are not "Active": the
    summary counts them, the low-stock report does not list them. *)
Definition inactive_low (p : Product.t) : bool :=
  (Product.quantity p <=? Product.reorderLevel p)
  && negb (String.eqb (Product.status p) "Active").

(** [p] with another status. *)
Definition with_status (st : string) (p : Product.t) : Product.t :=
  {| Product.sku := Product.sku p; Product.name := Product.name p;
     Product.categoryName := Product.categoryName p;
     Product.quantity := Product.quantity p; Product.unit := Product.unit p;
     Product.unitCost := Product.unitCost p;
     Product.sellingPrice := Product.sellingPrice p;
     Product.reorderLevel := Product.reorderLevel p;
     Product.location := Product.location p;
     Product.supplier := Product.supplier p; Product.status := st |}.

(** A clock reading and a locale for the examples. *)
Definition some_env : env :=
  {| now_iso := "2024-03-09T10:11:12.345Z"; toLocaleString := id |}.

Definition other_env : env :=
  {| now_iso := "2031-12-24T23:59:59.000Z";
     toLocaleString := fun s => s ++ " (local)" |}.

(** ** Row sequences the serializer is meant for *)

(** Neither a comma nor a newline in [s]. *)
Definition sep_free (s : string) : Prop :=
  Text.free Text.comma s /\ Text.free Text.newline s.

(** No key and no printed value of [r] holds a comma or a newline. *)
Definition clean_row (r : row) : Prop :=
  Forall (fun kv => sep_free (fst kv) /\ sep_free (to_str (snd kv))) r.

(** [r] has the keys of [first], each once (in any order). *)
Definition same_keys (first r : row) : Prop :=
  NoDup (keys r) /\ forall k, In k (keys first) <-> In k (keys r).

(** The printed values of a row, in its own property order. *)
Definition values (r : row) : list string :=
  map (fun kv => to_str (snd kv)) r.

(** Two rows that do not share their keys. *)
Definition ragged_rows : list row :=
  [ [("A", JStr "1")]; [("B", JStr "2")] ].

(** Two rows with the same keys in different orders. *)
Definition shuffled_rows : list row :=
  [ [("SKU", JStr "A1"); ("Quantity", JInt 5)];
    [("Quantity", JInt 7); ("SKU", JStr "B2")] ].

(** The product of the worked scenario: five in stock, reorder level ten. *)
Definition scenario_product : Product.t :=
  {| Product.sku := "A1"; Product.name := "Bolt";
     Product.categoryName := "Hardware"; Product.quantity := 5;
     Product.unit := "pcs"; Product.unitCost := 10; Product.sellingPrice := 15;
     Product.reorderLevel := 10; Product.location := "Aisle 2";
     Product.supplier := None; Product.status := "Active" |}.

(** ** More of the page, for the properties beyond C1-C10 *)

(** The builder behind each entry of the [reports] table. *)
Definition builder (k : report_kind) (e : env) (pg : page) : M ref :=
  match k with
  | Inventory => buildInventoryReport pg
  | LowStock => buildLowStockReport pg
  | TransactionHistory => buildTransactionReport e pg
  | Valuation => buildValuationReport pg
  end.

(** The property names of each report's object literal, in order. *)
Definition columns (k : report_kind) : list string :=
  match k with
  | Inventory =>
      ["SKU"; "Name"; "Category"; "Quantity"; "Unit"; "Unit Cost";
       "Selling Price"; "Total Value"; "Reorder Level"; "Location"; "Status"]
  | LowStock =>
      ["SKU"; "Name"; "Category"; "Current Quantity"; "Reorder Level";
       "Units Below Reorder"; "Location"; "Supplier"]
  | TransactionHistory =>
      ["Date"; "Product"; "Type"; "Quantity"; "User"; "Reason"]
  | Valuation =>
      ["SKU"; "Name"; "Category"; "Quantity"; "Unit Cost"; "Stock Value";
       "Potential Revenue"; "Potential Profit"]
  end.

(** The inputs for which a report has at least one row. *)
Definition has_rows (k : report_kind)
    (ps : list Product.t) (txs : list StockTransaction.t) : Prop :=
  match k with
  | Inventory => ps <> []
  | LowStock => exists p, In p ps /\ low_stock p
  | TransactionHistory => txs <> []
  | Valuation => True
  end.

(** The "Total Value" figure of the End of Day card (lines 296-298):
    [products.reduce((sum, p) => sum + p.quantity * p.unitCost, 0).toFixed(2)] *)
Definition totalValueCard (products : list Product.t) : string :=
  Number.toFixed2
    (fold_left
       (fun sum p =>
          (sum + Number.of_int (Product.quantity p) * Product.unitCost p)%float)
       products 0%float).

(** The "Total Transactions" figure (line 209): [transactions.length] *)
Definition totalTransactions (txs : list StockTransaction.t) : nat :=
  List.length txs.

(** [r] is the transaction row of [tx] under the locale of [e]. *)
Definition transaction_row_of (e : env) (tx : StockTransaction.t) (r : row)
    : Prop :=
  get "Date" r =
    Some (JStr (toLocaleString e (StockTransaction.transactionDate tx))) /\
  get "Product" r = Some (JStr (StockTransaction.productName tx)) /\
  get "Type" r = Some (JStr (StockTransaction.transactionType tx)) /\
  get "Quantity" r = Some (JInt (StockTransaction.quantity tx)) /\
  get "User" r = Some (JStr (StockTransaction.userName tx)) /\
  ((StockTransaction.reason tx = None \/ StockTransaction.reason tx = Some "") ->
   get "Reason" r = Some (JStr "N/A")) /\
  (forall s, StockTransaction.reason tx = Some s -> s <> "" ->
   get "Reason" r = Some (JStr s)).

(** The number of occurrences of [c] in [s], and in the strings of [l]. *)
Fixpoint count (c : ascii) (s : string) : nat :=
  match s with
  | EmptyString => 0
  | String a s' => ((if Ascii.eqb a c then 1 else 0) + count c s')%nat
  end.

Fixpoint count_all (c : ascii) (l : list string) : nat :=
  match l with
  | [] => 0
  | x :: rest => (count c x + count_all c rest)%nat
  end.

(** No key and no printed value of [r] holds a newline. *)
Definition one_line_row (r : row) : Prop :=
  Forall (fun kv => Text.free Text.newline (fst kv) /\
                    Text.free Text.newline (to_str (snd kv))) r.


(** The text fields of a product hold no comma and no newline. *)
Definition clean_product (p : Product.t) : Prop :=
  sep_free (Product.sku p) /\ sep_free (Product.name p) /\
  sep_free (Product.categoryName p) /\ sep_free (Product.unit p) /\
  sep_free (Product.location p) /\ sep_free (Product.status p) /\
  (forall s, Product.supplier p = Some s -> sep_free s).

(** The text fields of a transaction, and its date as the locale prints it,
    hold no comma and no newline. *)
Definition clean_transaction (e : env) (tx : StockTransaction.t) : Prop :=
  sep_free (toLocaleString e (StockTransaction.transactionDate tx)) /\
  sep_free (StockTransaction.productName tx) /\
  sep_free (StockTransaction.transactionType tx) /\
  sep_free (StockTransaction.userName tx) /\
  (forall s, StockTransaction.reason tx = Some s -> sep_free s).

(** A character that no printed number contains: not a digit and none of
    the other characters [Number::toString] and [toFixed] use. *)
Definition plain (c : ascii) : Prop :=
  Digits.is_digit c = false /\ Text.free c ".e+-NaNInfinity".

(** A locale that prints dates the en-US way, with a comma between the date
    and the time. *)
Definition us_env : env :=
  {| now_iso := "2024-03-09T10:11:12.345Z";
     toLocaleString := fun _ => "3/9/2024, 10:11:12 AM" |}.

Definition sale : StockTransaction.t :=
  {| StockTransaction.transactionDate := "2024-03-09T10:11:12.345Z";
     StockTransaction.productName := "Bolt";
     StockTransaction.transactionType := "OUT";
     StockTransaction.quantity := 3;
     StockTransaction.userName := "ana";
     StockTransaction.reason := Some "" |}.

(** A transaction whose date the locale prints with exactly one comma, its
    other text fields holding none, and nothing holding a newline. *)
Definition comma_dated (e : env) (tx : StockTransaction.t) : Prop :=
  count Text.comma (toLocaleString e (StockTransaction.transactionDate tx))
    = 1%nat /\
  Text.free Text.newline
    (toLocaleString e (StockTransaction.transactionDate tx)) /\
  sep_free (StockTransaction.productName tx) /\
  sep_free (StockTransaction.transactionType tx) /\
  sep_free (StockTransaction.userName tx) /\
  (forall s, StockTransaction.reason tx = Some s -> sep_free s).

(** An "Active" product above its reorder level: counted as active, not
    listed as low on stock. *)
Definition active_above (p : Product.t) : bool :=
  String.eqb (Product.status p) "Active"
  && negb (Product.quantity p <=? Product.reorderLevel p).

(** * Properties *)

(** ** The heap *)

Section Heap.

Lemma nth_error_snoc {A} (l : list A) (x : A) :
  nth_error (l ++ [x]) (List.length l) = Some x.
Proof.
  rewrite nth_error_app2 by lia. now rewrite Nat.sub_diag.
Qed.

Lemma nth_error_grow {A} (l extra : list A) (i : nat) (a : A) :
  nth_error l i = Some a -> nth_error (l ++ extra) i = Some a.
Proof.
  intros H. rewrite nth_error_app1; [assumption|].
  apply nth_error_Some. congruence.
Qed.

Lemma update_snoc {A} (l : list A) (x y : A) :
  update (l ++ [x]) (List.length l) y = (l ++ [y])%list.
Proof.
  induction l as [|a l IH]; simpl; [reflexivity|]. now rewrite IH.
Qed.

End Heap.

(** ** What each handler does to a world *)

Section Runs.

Variable e : env.
Variable pg : page.
Variable w : world.
Variable ps : list Product.t.
Variable txs : list StockTransaction.t.
Hypothesis Hholds : holds pg w ps txs.

Lemma read_products_run :
  read_products (products pg) w = Some (ps, w).
Proof.
  destruct Hholds as [Hp _].
  unfold read_products, bind, deref. now rewrite Hp.
Qed.

Lemma read_transactions_run :
  read_transactions (transactions pg) w = Some (txs, w).
Proof.
  destruct Hholds as [_ Ht].
  unfold read_transactions, bind, deref. now rewrite Ht.
Qed.

Lemma downloadCSV_run (data : ref) (rows : list row) (filename : string) :
  nth_error (heap w) data = Some (Rows rows) ->
  downloadCSV e data filename w =
  Some (tt, {| heap := heap w;
               log := log w ++ export_events e rows filename |}).
Proof.
  intros Hd. unfold downloadCSV, read_rows, bind, deref. rewrite Hd.
  destruct rows as [|first rest];
    unfold export_events, emit, bind, ret; cbn [heap log]; [reflexivity|].
  now rewrite <- app_assoc.
Qed.

Lemma buildInventoryReport_run :
  buildInventoryReport pg w =
  Some (List.length (heap w),
        {| heap := heap w ++ [Rows (map inventory_row ps)]; log := log w |}).
Proof.
  unfold buildInventoryReport, bind. now rewrite read_products_run.
Qed.

Lemma buildLowStockReport_run :
  buildLowStockReport pg w =
  Some (S (List.length (heap w)),
        {| heap := heap w ++ [Products (filter is_low_stock ps);
                              Rows (map low_stock_row
                                      (filter is_low_stock ps))];
           log := log w |}).
Proof.
  unfold buildLowStockReport, bind. rewrite read_products_run.
  unfold alloc at 1. unfold read_products, bind, deref; cbn [heap log].
  rewrite nth_error_snoc. unfold ret, alloc; cbn [heap log].
  rewrite length_app, <- app_assoc. cbn [List.length app].
  now rewrite Nat.add_1_r.
Qed.

Lemma buildTransactionReport_run :
  buildTransactionReport e pg w =
  Some (List.length (heap w),
        {| heap := heap w ++
                   [Rows (map (transaction_row (toLocaleString e)) txs)];
           log := log w |}).
Proof.
  unfold buildTransactionReport, bind. now rewrite read_transactions_run.
Qed.

Lemma buildValuationReport_run :
  buildValuationReport pg w =
  Some (List.length (heap w),
        {| heap := heap w ++ [Rows (map valuation_row ps ++ [total_row ps])];
           log := log w |}).
Proof.
  destruct Hholds as [Hp _].
  unfold buildValuationReport, bind. rewrite read_products_run.
  unfold alloc at 1. unfold read_products, bind, deref; cbn [heap log].
  rewrite (nth_error_grow _ _ _ _ Hp).
  unfold ret, push, read_rows, bind, deref; cbn [heap log].
  rewrite nth_error_snoc. unfold ret, store; cbn [heap log].
  now rewrite update_snoc.
Qed.

End Runs.

Lemma holds_grow pg w ps txs extra evs :
  holds pg w ps txs ->
  holds pg {| heap := heap w ++ extra; log := evs |} ps txs.
Proof.
  intros [Hp Ht]. split; cbn [heap]; now apply nth_error_grow.
Qed.

Lemma action_run (k : report_kind) e pg w ps txs :
  holds pg w ps txs ->
  action k e pg w =
  Some (tt, {| heap := heap w ++ allocated k e ps txs;
               log := log w ++
                      export_events e (report_rows k e ps txs) (report_id k) |}).
Proof.
  intros H.
  destruct k; cbn [action allocated report_rows report_id];
    unfold generateInventoryReport, generateLowStockReport,
      generateTransactionReport, generateValuationReport, bind.
  - rewrite (buildInventoryReport_run _ _ _ _ H).
    erewrite downloadCSV_run by (cbn [heap]; apply nth_error_snoc).
    reflexivity.
  - rewrite (buildLowStockReport_run _ _ _ _ H).
    erewrite downloadCSV_run.
    + reflexivity.
    + cbn [heap].
      change (heap w ++ [Products (filter is_low_stock ps);
                Rows (map low_stock_row (filter is_low_stock ps))])%list
        with (heap w ++ [Products (filter is_low_stock ps)] ++
                [Rows (map low_stock_row (filter is_low_stock ps))])%list.
      rewrite app_assoc.
      replace (S (List.length (heap w)))
        with (List.length (heap w ++ [Products (filter is_low_stock ps)]))
        by (rewrite length_app; cbn; lia).
      apply nth_error_snoc.
  - rewrite (buildTransactionReport_run _ _ _ _ _ H).
    erewrite downloadCSV_run by (cbn [heap]; apply nth_error_snoc).
    reflexivity.
  - rewrite (buildValuationReport_run _ _ _ _ H).
    erewrite downloadCSV_run by (cbn [heap]; apply nth_error_snoc).
    reflexivity.
Qed.

Lemma endOfDay_run e pg w ps txs :
  holds pg w ps txs ->
  endOfDay e pg w =
  Some (tt,
        {| heap := (heap w ++ allocated Inventory e ps txs)
                   ++ allocated LowStock e ps txs;
           log := ((log w ++
                    export_events e (report_rows Inventory e ps txs)
                      "inventory_report") ++
                   export_events e (report_rows LowStock e ps txs)
                     "low_stock_report") ++
                  [ToastSuccess "End of Day reports generated"] |}).
Proof.
  intros H. unfold endOfDay, bind.
  change (generateInventoryReport e pg) with (action Inventory e pg).
  rewrite (action_run Inventory _ _ _ _ _ H).
  change (generateLowStockReport e pg) with (action LowStock e pg).
  rewrite (action_run LowStock e pg _ ps txs) by now apply holds_grow.
  reflexivity.
Qed.

(** ** [split] undoes [join] *)

Section SplitJoin.

Import Text.

Variable c : ascii.

Local Abbreviation free := (free c).

Lemma contains_app (a b : string) :
  contains c (a ++ b) = contains c a || contains c b.
Proof.
  induction a as [|x a IH]; cbn; [reflexivity|].
  now rewrite IH, orb_assoc.
Qed.

Lemma split_not_nil (s : string) : split c s <> [].
Proof.
  induction s as [|a s IH]; cbn; [discriminate|].
  destruct (Ascii.eqb a c); [discriminate|].
  destruct (split c s); discriminate.
Qed.

Lemma split_free (s : string) : free s -> split c s = [s].
Proof.
  unfold free. induction s as [|a s IH]; cbn; [reflexivity|].
  destruct (Ascii.eqb a c); cbn; [discriminate|].
  intros H. now rewrite (IH H).
Qed.

Lemma split_app_sep (s t : string) :
  free s -> split c (s ++ String c t) = s :: split c t.
Proof.
  unfold free. induction s as [|a s IH]; cbn.
  - intros _. now rewrite Ascii.eqb_refl.
  - destruct (Ascii.eqb a c); cbn; [discriminate|].
    intros H. now rewrite (IH H).
Qed.

Lemma split_join (l : list string) :
  l <> [] -> Forall free l -> split c (join (String c "") l) = l.
Proof.
  induction l as [|x l IH]; [congruence|]. intros _ Hall.
  inversion Hall as [|? ? Hx Hl]; subst.
  destruct l as [|y l].
  - cbn. now apply split_free.
  - change (join (String c "") (x :: y :: l))
      with (x ++ String c (join (String c "") (y :: l))).
    rewrite split_app_sep by assumption.
    f_equal. apply IH; [discriminate|assumption].
Qed.

Lemma join_free (d : ascii) (l : list string) :
  Ascii.eqb d c = false -> Forall free l -> free (join (String d "") l).
Proof.
  intros Hd. unfold free.
  induction l as [|x l IH]; intros Hall; [reflexivity|].
  inversion Hall as [|? ? Hx Hl]; subst.
  destruct l as [|y l]; [exact Hx|].
  change (join (String d "") (x :: y :: l))
    with (x ++ String d (join (String d "") (y :: l))).
  rewrite contains_app, Hx. cbn [orb contains]. rewrite Hd.
  now apply IH.
Qed.

End SplitJoin.

(** ** Decimal digits and two-decimal amounts *)

Section DigitFacts.

Import Digits Decimal Text Number.

Lemma is_digit_digit (d : Z) : 0 <= d < 10 -> is_digit (digit d) = true.
Proof.
  intros H.
  assert (d = 0 \/ d = 1 \/ d = 2 \/ d = 3 \/ d = 4 \/
          d = 5 \/ d = 6 \/ d = 7 \/ d = 8 \/ d = 9) as Hd by lia.
  repeat (destruct Hd as [-> | Hd]; [reflexivity|]). now subst.
Qed.

Lemma digit_val_digit (d : Z) : 0 <= d < 10 -> digit_val (digit d) = d.
Proof.
  intros H.
  assert (d = 0 \/ d = 1 \/ d = 2 \/ d = 3 \/ d = 4 \/
          d = 5 \/ d = 6 \/ d = 7 \/ d = 8 \/ d = 9) as Hd by lia.
  repeat (destruct Hd as [-> | Hd]; [reflexivity|]). now subst.
Qed.

Lemma is_digit_not (a c : ascii) :
  is_digit c = false -> is_digit a = true -> Ascii.eqb a c = false.
Proof.
  intros Hc Ha. destruct (Ascii.eqb_spec a c); [congruence|reflexivity].
Qed.

Lemma all_digits_free (c : ascii) (s : string) :
  is_digit c = false -> all_digits s = true -> free c s.
Proof.
  intros Hc. unfold free.
  induction s as [|a s IH]; cbn; [reflexivity|].
  intros H. apply andb_prop in H as [Ha Hs].
  now rewrite (is_digit_not a c Hc Ha), IH.
Qed.

Lemma all_digits_fuel (fuel : nat) (n : Z) (acc : string) :
  all_digits acc = true -> all_digits (digits_fuel fuel n acc) = true.
Proof.
  revert n acc. induction fuel as [|fuel IH]; intros n acc Hacc; cbn;
    [assumption|].
  assert (all_digits (String (digit (n mod 10)) acc) = true) as H.
  { cbn [all_digits]. rewrite Hacc, is_digit_digit; [reflexivity|].
    apply Z.mod_pos_bound; lia. }
  destruct (n <? 10); [exact H | now apply IH].
Qed.

Lemma all_digits_digits (n : Z) : all_digits (digits n) = true.
Proof. now apply all_digits_fuel. Qed.

Lemma digits_fuel_not_empty (fuel : nat) (n : Z) (acc : string) :
  digits_fuel (S fuel) n acc <> "".
Proof.
  revert n acc. induction fuel as [|fuel IH]; intros n acc.
  - cbn. destruct (n <? 10); discriminate.
  - cbn [digits_fuel]. destruct (n <? 10); [discriminate|]. apply IH.
Qed.

Lemma digits_not_empty (n : Z) : digits n <> "".
Proof. apply digits_fuel_not_empty. Qed.

Lemma parse_digits_fuel (fuel : nat) (n : Z) (acc : string) :
  0 <= n -> Z.log2 n < Z.of_nat fuel ->
  parse_digits_acc (digits_fuel fuel n acc) 0 = parse_digits_acc acc n.
Proof.
  revert n acc. induction fuel as [|fuel IH]; intros n acc Hn Hfuel.
  - pose proof (Z.log2_nonneg n). lia.
  - cbn [digits_fuel].
    assert (0 <= n mod 10 < 10) as Hmod by (apply Z.mod_pos_bound; lia).
    destruct (Z.ltb_spec n 10) as [Hlt|Hge].
    + cbn [parse_digits_acc]. rewrite is_digit_digit by assumption.
      rewrite digit_val_digit by assumption.
      rewrite Z.mod_small by lia. f_equal.
    + rewrite IH.
      * cbn [parse_digits_acc]. rewrite is_digit_digit by assumption.
        rewrite digit_val_digit by assumption. f_equal.
        pose proof (Z.div_mod n 10). lia.
      * apply Z.div_pos; lia.
      * assert (0 < n / 10) as Hpos by (apply Z.div_str_pos; lia).
        apply Z.log2_lt_pow2; [assumption|].
        assert (n < 2 ^ Z.of_nat (S fuel)) as Hlt
          by (apply Z.log2_lt_pow2; lia).
        rewrite Nat2Z.inj_succ, Z.pow_succ_r in Hlt by lia.
        pose proof (Z.pow_pos_nonneg 2 (Z.of_nat fuel)).
        apply Z.div_lt_upper_bound; lia.
Qed.

Lemma parse_digits_digits (n : Z) : 0 <= n -> parse_digits (digits n) = Some n.
Proof.
  intros Hn. unfold parse_digits.
  pose proof (digits_not_empty n) as Hne.
  destruct (digits n) eqn:E; [congruence|]. rewrite <- E.
  unfold digits. rewrite parse_digits_fuel; [reflexivity|assumption|].
  pose proof (Z.log2_nonneg n). lia.
Qed.

End DigitFacts.

(** ** [toFixed(2)] inside its fixed-point range *)

Section FixedFacts.

Import Digits Decimal Text Number.

Lemma parse_fixed2_string (n : Z) :
  0 <= n -> parse_unsigned_cents (fixed2_string n) = Some n.
Proof.
  intros Hn. unfold parse_unsigned_cents, fixed2_string.
  assert (0 <= n mod 100 < 100) as H100 by (apply Z.mod_pos_bound; lia).
  assert (0 <= n mod 10 < 10) as H10 by (apply Z.mod_pos_bound; lia).
  assert (0 <= n mod 100 / 10 < 10) as Hd1.
  { split; [apply Z.div_pos; lia|apply Z.div_lt_upper_bound; lia]. }
  change ("." ++ ?t) with (String dot t).
  rewrite split_app_sep
    by (apply all_digits_free; [reflexivity|apply all_digits_digits]).
  rewrite split_free.
  2:{ apply all_digits_free; [reflexivity|]. cbn [all_digits].
      now rewrite !is_digit_digit. }
  rewrite parse_digits_digits by (apply Z.div_pos; lia).
  rewrite !is_digit_digit, !digit_val_digit by assumption.
  cbn [andb]. f_equal.
  pose proof (Z.div_mod n 100). pose proof (Z.div_mod (n mod 100) 10).
  assert ((n mod 100) mod 10 = n mod 10) as Hmm.
  { change 100 with (10 * 10).
    rewrite Z.rem_mul_r by lia.
    rewrite (Z.mul_comm 10), Z.mod_add by lia.
    apply Z.mod_mod; lia. }
  lia.
Qed.

Lemma fixed2_string_head (n : Z) :
  exists a r, fixed2_string n = String a r /\ Ascii.eqb a minus = false.
Proof.
  unfold fixed2_string.
  pose proof (digits_not_empty (n / 100)) as Hne.
  pose proof (all_digits_digits (n / 100)) as Hall.
  destruct (digits (n / 100)) as [|a r]; [congruence|].
  cbn [all_digits] in Hall. apply andb_prop in Hall as [Ha _].
  exists a. eexists. split; [reflexivity|].
  now apply (is_digit_not a minus).
Qed.

Lemma round_hundredths_nonneg (m : positive) (e : Z) :
  0 <= round_hundredths m e.
Proof.
  unfold round_hundredths. pose proof (Pos2Z.is_pos m) as Hm.
  destruct (Z.leb_spec 0 e) as [He|He].
  - assert (0 <= 2 ^ e) by (apply Z.pow_nonneg; lia).
    apply Z.mul_nonneg_nonneg; lia.
  - assert (0 < 2 ^ (- e)) by (apply Z.pow_pos_nonneg; lia).
    apply Z.div_pos; lia.
Qed.

Lemma round_hundredths_nearest (m : positive) (e : Z) :
  nearest_hundredth m e (round_hundredths m e).
Proof.
  unfold nearest_hundredth, round_hundredths.
  destruct (Z.leb_spec 0 e) as [He|He]; [reflexivity|].
  assert (0 < 2 ^ (- e)) as Hpow by (apply Z.pow_pos_nonneg; lia).
  set (d := 2 ^ (- e)) in *.
  pose proof (Z.div_mod (200 * Z.pos m + d) (2 * d)) as Hdiv.
  pose proof (Z.mod_pos_bound (200 * Z.pos m + d) (2 * d)) as Hmod.
  nia.
Qed.

Lemma parse_cents_signed (s : bool) (n : Z) :
  0 <= n ->
  parse_cents (sign_string s ++ fixed2_string n) = Some (cond_Zopp s n).
Proof.
  intros Hn. destruct s; cbn [sign_string cond_Zopp].
  - change ("-" ++ ?t) with (String minus t). unfold parse_cents.
    rewrite Ascii.eqb_refl, parse_fixed2_string by assumption. reflexivity.
  - cbn [append]. destruct (fixed2_string_head n) as (a & r & E & Ha).
    unfold parse_cents. rewrite E, Ha, <- E.
    now apply parse_fixed2_string.
Qed.

(** Inside the range the text is a two-decimal amount, worth the hundredths
    nearest to the number. *)
Lemma toFixed2_amount (x : spec_float) :
  fixed_range x = true -> parse_cents (sf_toFixed2 x) = Some (hundredths x).
Proof.
  destruct x as [s|s| |s m e]; cbn [fixed_range]; try discriminate.
  - intros _. reflexivity.
  - intros H. apply negb_true_iff in H.
    cbn [sf_toFixed2 hundredths]. rewrite H.
    apply parse_cents_signed, round_hundredths_nonneg.
Qed.

Lemma toFixed2_two_decimals (x : spec_float) :
  fixed_range x = true -> two_decimals (sf_toFixed2 x) = true.
Proof.
  intros H. unfold two_decimals. now rewrite toFixed2_amount.
Qed.

End FixedFacts.

(** ** Builders leave their report in a fresh array *)

Section Built.

Variables (pg : page) (w : world).
Variables (ps : list Product.t) (txs : list StockTransaction.t).
Hypothesis Hholds : holds pg w ps txs.

Lemma built_inventory :
  built (buildInventoryReport pg) w (map inventory_row ps).
Proof.
  eexists _, _. split; [exact (buildInventoryReport_run _ _ _ _ Hholds)|].
  cbn [heap]. apply nth_error_snoc.
Qed.

Lemma built_low_stock :
  built (buildLowStockReport pg) w
    (map low_stock_row (filter is_low_stock ps)).
Proof.
  eexists _, _. split; [exact (buildLowStockReport_run _ _ _ _ Hholds)|].
  cbn [heap]. now rewrite nth_error_app2, Nat.sub_succ_l, Nat.sub_diag by lia.
Qed.

Lemma built_transaction (e : env) :
  built (buildTransactionReport e pg) w
    (map (transaction_row (toLocaleString e)) txs).
Proof.
  eexists _, _. split; [exact (buildTransactionReport_run _ _ _ _ _ Hholds)|].
  cbn [heap]. apply nth_error_snoc.
Qed.

Lemma built_valuation :
  built (buildValuationReport pg) w (map valuation_row ps ++ [total_row ps]).
Proof.
  eexists _, _. split; [exact (buildValuationReport_run _ _ _ _ Hholds)|].
  cbn [heap]. apply nth_error_snoc.
Qed.

End Built.

Lemma Forall2_map_filter {A B} (R : A -> B -> Prop) (f : A -> bool)
    (g : A -> B) (l : list A) :
  (forall a, f a = true -> R a (g a)) ->
  Forall2 R (filter f l) (map g (filter f l)).
Proof.
  intros H. induction l as [|a l IH]; cbn; [constructor|].
  destruct (f a) eqn:E; [|exact IH].
  cbn. constructor; [now apply H | exact IH].
Qed.

Lemma Forall2_map_same {A B} (R : A -> B -> Prop) (g : A -> B) (l : list A) :
  (forall a, R a (g a)) -> Forall2 R l (map g l).
Proof.
  intros H. induction l as [|a l IH]; cbn; constructor; auto.
Qed.

(** ** Low-stock report *)

Lemma is_low_stock_iff (p : Product.t) : is_low_stock p = true <-> low_stock p.
Proof.
  unfold is_low_stock, low_stock.
  rewrite andb_true_iff, Z.leb_le, String.eqb_eq. tauto.
Qed.

Lemma or_default_some (s d : string) : s <> "" -> or_default (Some s) d = s.
Proof. destruct s; [congruence|reflexivity]. Qed.

Lemma low_stock_row_ok (p : Product.t) :
  is_low_stock p = true -> low_stock_row_of p (low_stock_row p).
Proof.
  intros H. apply is_low_stock_iff in H. pose proof H as [_ Hle].
  unfold low_stock_row_of. cbn zeta.
  split; [exact H|]. do 2 (split; [reflexivity|]). do 2 (split; [lia|]).
  split.
  - intros [Hs|Hs]; cbn; now rewrite Hs.
  - intros s Hs Hne. cbn. now rewrite Hs, or_default_some.
Qed.

(** C1, as amended.  Whatever products the page holds, the low-stock builder
    returns one row for each product that is "Active" with
    [quantity <= reorderLevel], in order, and none for the others; the row's
    Units Below Reorder is [reorderLevel - quantity], which is zero exactly at
    the threshold and positive below it; its Supplier is the product's
    supplier, or "N/A" when the supplier is absent or the empty string. *)
Theorem low_stock_report_rows (pg : page) (w : world)
    (ps : list Product.t) (txs : list StockTransaction.t) :
  holds pg w ps txs ->
  exists rows,
    built (buildLowStockReport pg) w rows /\
    Forall2 low_stock_row_of (filter is_low_stock ps) rows /\
    (forall p, In p (filter is_low_stock ps) <-> In p ps /\ low_stock p).
Proof.
  intros H.
  exists (map low_stock_row (filter is_low_stock ps)). split; [|split].
  - exact (built_low_stock pg w ps txs H).
  - apply Forall2_map_filter, low_stock_row_ok.
  - intros p. rewrite filter_In, is_low_stock_iff. reflexivity.
Qed.

Lemma low_stock_report_rows_witness :
  holds (fst (mounted [blank_supplier] [])) (snd (mounted [blank_supplier] []))
    [blank_supplier] [] /\
  exists rows,
    built (buildLowStockReport (fst (mounted [blank_supplier] [])))
      (snd (mounted [blank_supplier] [])) rows /\
    Forall2 low_stock_row_of (filter is_low_stock [blank_supplier]) rows /\
    (forall p, In p (filter is_low_stock [blank_supplier]) <->
               In p [blank_supplier] /\ low_stock p).
Proof.
  split; [split; reflexivity|].
  apply (low_stock_report_rows _ _ [blank_supplier] []). split; reflexivity.
Defined.

(** C1 as stated fails on a product whose supplier is present but empty: the
    page prints "N/A", not the supplier. *)
Lemma low_stock_supplier_counterexample :
  exists row,
    built (buildLowStockReport (fst (mounted [blank_supplier] [])))
      (snd (mounted [blank_supplier] [])) [row] /\
    low_stock blank_supplier /\
    Product.supplier blank_supplier <> None /\
    get "Supplier" row = Some (JStr "N/A") /\
    get "Supplier" row <> Some (JStr (supplier_as_stated blank_supplier)).
Proof.
  exists (low_stock_row blank_supplier). split; [|split; [|split; [|split]]].
  - eexists _, _. split; reflexivity.
  - split; [reflexivity|cbn; lia].
  - discriminate.
  - reflexivity.
  - discriminate.
Qed.

(** ** The printing of numbers on a few values *)

Section NumberExamples.

Import Number.
Local Open Scope float_scope.

Example to_string_integers :
  map (fun z => to_string (of_int z)) [0; 5; -3; 1200; 10 ^ 21]%Z =
  ["0"; "5"; "-3"; "1200"; "1e+21"].
Proof. vm_compute. reflexivity. Qed.

Example to_string_fractions :
  map to_string [0.5; 1 / 10; 1 / 10 + 2 / 10; 1 / 3; 123.5; 1 / 1024 / 1024] =
  ["0.5"; "0.1"; "0.30000000000000004"; "0.3333333333333333"; "123.5";
   "9.5367431640625e-7"].
Proof. vm_compute. reflexivity. Qed.

Example toFixed2_values :
  map toFixed2 [0; 10; 0.125; 2.5; 1.0625; 201 / 200; -1.5; 1e20; 1e21;
                0 / 0; 1 / 0] =
  ["0.00"; "10.00"; "0.13"; "2.50"; "1.06"; "1.00"; "-1.50";
   "100000000000000000000.00"; "1e+21"; "NaN"; "Infinity"].
Proof. vm_compute. reflexivity. Qed.

End NumberExamples.

(** ** Amounts *)

Lemma toFixed2_amount_of (x : float) :
  Decimal.fixed_range (Prim2SF x) = true -> amount_of x (Number.toFixed2 x).
Proof.
  intros H. pose proof (toFixed2_amount _ H) as Hp.
  unfold amount_of, Number.toFixed2.
  destruct (Prim2SF x) as [s|s| |s m e]; try discriminate.
  - exact Hp.
  - exists (Number.round_hundredths m e). split; [exact Hp|].
    apply round_hundredths_nearest.
Qed.

Lemma fold_left_add_map {A} (f : A -> float) (l : list A) (acc : float) :
  fold_left (fun sum a => (sum + f a)%float) l acc =
  fold_left PrimFloat.add (map f l) acc.
Proof.
  revert acc. induction l as [|a l IH]; intros acc; cbn; [reflexivity|].
  apply IH.
Qed.

Lemma totalValue_sum (ps : list Product.t) :
  totalValue ps = sum_float (map stock_value ps).
Proof. apply (fold_left_add_map stock_value). Qed.

Lemma totalRevenue_sum (ps : list Product.t) :
  totalRevenue ps = sum_float (map potential_revenue ps).
Proof. apply (fold_left_add_map potential_revenue). Qed.

(** ** Inventory report *)

Lemma inventory_row_ok (p : Product.t) : inventory_row_of p (inventory_row p).
Proof.
  unfold inventory_row_of. do 4 (split; [reflexivity|]).
  intros H. split; [now apply toFixed2_two_decimals|].
  now apply toFixed2_amount_of.
Qed.

(** C3, as amended.  The inventory builder returns one row per product, in
    the order of the collection; each row's Total Value is
    [(quantity * unitCost).toFixed(2)], and whenever that product is finite
    and below [10^21] in magnitude the text is a two-decimal amount, the one
    nearest to the product. *)
Theorem inventory_report_rows (pg : page) (w : world)
    (ps : list Product.t) (txs : list StockTransaction.t) :
  holds pg w ps txs ->
  exists rows,
    built (buildInventoryReport pg) w rows /\
    List.length rows = List.length ps /\
    Forall2 inventory_row_of ps rows.
Proof.
  intros H. exists (map inventory_row ps). split; [|split].
  - exact (built_inventory pg w ps txs H).
  - apply length_map.
  - apply Forall2_map_same, inventory_row_ok.
Qed.

Lemma inventory_report_rows_witness :
  holds (fst (mounted fractional_prices [])) (snd (mounted fractional_prices []))
    fractional_prices [] /\
  exists rows,
    built (buildInventoryReport (fst (mounted fractional_prices [])))
      (snd (mounted fractional_prices [])) rows /\
    List.length rows = List.length fractional_prices /\
    Forall2 inventory_row_of fractional_prices rows.
Proof.
  split; [split; reflexivity|].
  apply (inventory_report_rows _ _ fractional_prices []). split; reflexivity.
Defined.

(** C3 as stated fails once [quantity * unitCost] reaches [10^21]: [toFixed]
    then prints exponent notation, without decimals. *)
Lemma inventory_total_value_counterexample :
  exists row,
    built (buildInventoryReport (fst (mounted [huge_cost] [])))
      (snd (mounted [huge_cost] [])) [row] /\
    get "Total Value" row = Some (JStr "1e+21") /\
    Decimal.two_decimals "1e+21" = false.
Proof.
  exists (inventory_row huge_cost). split; [|split].
  - eexists _, _. split; reflexivity.
  - vm_compute. reflexivity.
  - reflexivity.
Qed.

(** ** Valuation report *)

Lemma valuation_row_ok (p : Product.t) : valuation_row_of p (valuation_row p).
Proof. unfold valuation_row_of. repeat split. Qed.

Lemma valuation_total_ok (ps : list Product.t) :
  valuation_total_of ps (total_row ps).
Proof.
  unfold valuation_total_of. cbn zeta.
  rewrite <- totalValue_sum, <- totalRevenue_sum.
  do 8 (split; [reflexivity|]). apply toFixed2_amount_of.
Qed.

(** C2, as amended.  The valuation builder returns one row per product
    followed by the TOTAL row, [products.length + 1] rows in all.  The TOTAL
    row leaves Name, Category and Unit Cost blank; its Stock Value and
    Potential Revenue render the sums of the products' unrounded values, and
    its Potential Profit renders the difference of those two sums. *)
Theorem valuation_report_rows (pg : page) (w : world)
    (ps : list Product.t) (txs : list StockTransaction.t) :
  holds pg w ps txs ->
  exists body total,
    built (buildValuationReport pg) w (body ++ [total]) /\
    List.length (body ++ [total]) = (List.length ps + 1)%nat /\
    Forall2 valuation_row_of ps body /\
    valuation_total_of ps total.
Proof.
  intros H. exists (map valuation_row ps), (total_row ps).
  split; [|split; [|split]].
  - exact (built_valuation pg w ps txs H).
  - now rewrite length_app, length_map.
  - apply Forall2_map_same, valuation_row_ok.
  - apply valuation_total_ok.
Qed.

Lemma valuation_report_rows_witness :
  holds (fst (mounted fractional_prices [])) (snd (mounted fractional_prices []))
    fractional_prices [] /\
  exists body total,
    built (buildValuationReport (fst (mounted fractional_prices [])))
      (snd (mounted fractional_prices [])) (body ++ [total]) /\
    List.length (body ++ [total]) = (List.length fractional_prices + 1)%nat /\
    Forall2 valuation_row_of fractional_prices body /\
    valuation_total_of fractional_prices total.
Proof.
  split; [split; reflexivity|].
  apply (valuation_report_rows _ _ fractional_prices []). split; reflexivity.
Defined.

(** C2 as stated fails on three products priced off the cent: the rows'
    Stock Values add up to 3.18 while TOTAL shows 3.19, and TOTAL's
    Potential Revenue minus its Stock Value is 1.04 while its Potential Profit
    shows 1.05.  The SKU of the TOTAL row is not blank either: it reads
    "TOTAL". *)
Lemma valuation_total_counterexample :
  exists body total,
    built (buildValuationReport (fst (mounted fractional_prices [])))
      (snd (mounted fractional_prices [])) (body ++ [total]) /\
    sum_cents "Stock Value" body = Some 318 /\
    cents_at "Stock Value" total = Some 319 /\
    cents_at "Potential Revenue" total = Some 423 /\
    cents_at "Potential Profit" total = Some 105 /\
    sum_cents "Stock Value" body <> cents_at "Stock Value" total /\
    get "SKU" total = Some (JStr "TOTAL").
Proof.
  exists (map valuation_row fractional_prices), (total_row fractional_prices).
  split; [eexists _, _; split; reflexivity|].
  do 4 (split; [vm_compute; reflexivity|]).
  split; [vm_compute; discriminate|reflexivity].
Qed.

(** ** The date in the file name *)

Section FileName.

Import Digits Text.




End FileName.

(** ** The "no data" path *)

Lemma export_events_nonempty (e : env) (rows : list row) (filename : string) :
  rows <> [] ->
  exists content,
    export_events e rows filename =
    [ Download (filename ++ "_" ++ date_part e ++ ".csv") "text/csv" content;
      ToastSuccess "Report downloaded successfully" ].
Proof.
  destruct rows as [|first rest]; [congruence|]. intros _.
  now exists (csvContent first (first :: rest)).
Qed.

Lemma valuation_rows_nonempty (e : env) ps txs :
  report_rows Valuation e ps txs <> [].
Proof.
  cbn [report_rows]. intros H. apply app_eq_nil in H as [_ H]. discriminate.
Qed.

(** C4.  An export whose row sequence is empty only signals
    "No data to export": the one new event is that error toast, so no file is
    offered and no success is announced.  The valuation report never takes
    this path: its row sequence always holds the TOTAL row, and its export
    offers a file. *)
Theorem empty_export_no_data (e : env) (w : world) :
  (forall data filename,
      nth_error (heap w) data = Some (Rows []) ->
      downloadCSV e data filename w =
      Some (tt, {| heap := heap w;
                   log := log w ++ [ToastError "No data to export"] |})) /\
  (forall pg ps txs,
      holds pg w ps txs ->
      exists rows w' name content,
        built (buildValuationReport pg) w rows /\ rows <> [] /\
        generateValuationReport e pg w = Some (tt, w') /\
        log w' = (log w ++ [ Download name "text/csv" content;
                             ToastSuccess "Report downloaded successfully" ])%list).
Proof.
  split.
  - intros data filename H. now rewrite (downloadCSV_run e w data [] filename H).
  - intros pg ps txs H.
    pose proof (valuation_rows_nonempty e ps txs) as Hne.
    destruct (export_events_nonempty e _ "valuation_report" Hne) as [c Hc].
    exists (report_rows Valuation e ps txs). eexists. eexists. exists c.
    split; [exact (built_valuation pg w ps txs H)|]. split; [exact Hne|].
    split.
    + exact (action_run Valuation e pg w ps txs H).
    + cbn [log report_id]. now rewrite Hc.
Qed.

Lemma empty_export_no_data_witness :
  let e := {| now_iso := "2024-03-09T10:11:12.345Z"; toLocaleString := id |} in
  let w := {| heap := [Products []; Transactions []; Rows []]; log := [] |} in
  let pg := {| products := 0%nat; transactions := 1%nat |} in
  (nth_error (heap w) 2 = Some (Rows []) /\
   downloadCSV e 2%nat "inventory_report" w =
   Some (tt, {| heap := heap w;
                log := log w ++ [ToastError "No data to export"] |})) /\
  (holds pg w [] [] /\
   exists rows w' name content,
     built (buildValuationReport pg) w rows /\ rows <> [] /\
     generateValuationReport e pg w = Some (tt, w') /\
     log w' = (log w ++ [ Download name "text/csv" content;
                          ToastSuccess "Report downloaded successfully" ])%list).
Proof.
  intros e w pg. split.
  - split; [reflexivity|].
    apply (proj1 (empty_export_no_data e w)). reflexivity.
  - split; [split; reflexivity|].
    apply (proj2 (empty_export_no_data e w) pg [] []). split; reflexivity.
Defined.

(** ** End of Day *)

(** C9.  The End of Day handler runs the inventory export and the low-stock
    export and then always announces "End of Day reports generated": it is the
    last event of the run whatever the two exports did.  With no products both
    exports only signal "No data to export", and the announcement follows all
    the same. *)
Theorem end_of_day_always_announces (e : env) (pg : page) (w : world)
    (ps : list Product.t) (txs : list StockTransaction.t) :
  holds pg w ps txs ->
  exists w' evs,
    endOfDay e pg w = Some (tt, w') /\
    log w' = (log w ++ evs ++ [ToastSuccess "End of Day reports generated"])%list /\
    evs = (export_events e (report_rows Inventory e ps txs) "inventory_report"
           ++ export_events e (report_rows LowStock e ps txs)
                "low_stock_report")%list /\
    (ps = [] ->
     evs = [ToastError "No data to export"; ToastError "No data to export"] /\
     contents evs = []).
Proof.
  intros H. eexists.
  exists (export_events e (report_rows Inventory e ps txs) "inventory_report"
          ++ export_events e (report_rows LowStock e ps txs)
               "low_stock_report")%list.
  split; [exact (endOfDay_run e pg w ps txs H)|].
  cbn [log]. split; [rewrite <- !app_assoc; reflexivity|].
  split; [reflexivity|].
  intros ->. split; reflexivity.
Qed.

Lemma end_of_day_always_announces_witness :
  let e := {| now_iso := "2024-03-09T10:11:12.345Z"; toLocaleString := id |} in
  holds (fst (mounted [] [])) (snd (mounted [] [])) [] [] /\
  exists w' evs,
    endOfDay e (fst (mounted [] [])) (snd (mounted [] [])) = Some (tt, w') /\
    log w' = (log (snd (mounted [] [])) ++ evs
              ++ [ToastSuccess "End of Day reports generated"])%list /\
    evs = (export_events e (report_rows Inventory e [] []) "inventory_report"
           ++ export_events e (report_rows LowStock e [] [])
                "low_stock_report")%list /\
    (@nil Product.t = [] ->
     evs = [ToastError "No data to export"; ToastError "No data to export"] /\
     contents evs = []).
Proof.
  intros e. split; [split; reflexivity|].
  apply (end_of_day_always_announces e _ _ [] []). split; reflexivity.
Defined.

(** ** Exported files *)

Lemma export_events_download (e : env) (rows : list row) (filename : string)
    (name mime content : string) :
  In (Download name mime content) (export_events e rows filename) ->
  name = filename ++ "_" ++ date_part e ++ ".csv" /\ mime = "text/csv" /\
  exists first rest, rows = first :: rest /\ content = csvContent first rows.
Proof.
  destruct rows as [|first rest]; cbn [export_events In].
  - intros [H|[]]. discriminate.
  - intros [H|[H|[]]]; [|discriminate].
    injection H as <- <- <-. repeat split. now exists first, rest.
Qed.

Lemma contents_export_events (e : env) (rows : list row) (filename : string) :
  contents (export_events e rows filename) =
  match rows with
  | [] => []
  | first :: _ => [csvContent first rows]
  end.
Proof. destruct rows; reflexivity. Qed.





(** ** Summary card against the low-stock report *)

Lemma filter_length_split {A} (f g : A -> bool) (l : list A) :
  List.length (filter f l) =
  (List.length (filter (fun a => f a && g a) l) +
   List.length (filter (fun a => f a && negb (g a)) l))%nat.
Proof.
  induction l as [|a l IH]; cbn; [reflexivity|].
  destruct (f a), (g a); cbn; lia.
Qed.

Lemma lowStockItems_split (ps : list Product.t) :
  lowStockItems ps =
  (List.length (filter is_low_stock ps) +
   List.length (filter inactive_low ps))%nat.
Proof.
  unfold lowStockItems.
  apply (filter_length_split
           (fun p => Product.quantity p <=? Product.reorderLevel p)
           (fun p => String.eqb (Product.status p) "Active")).
Qed.

Lemma lowStockItems_status (st : string) (ps : list Product.t) :
  lowStockItems (map (with_status st) ps) = lowStockItems ps.
Proof.
  unfold lowStockItems.
  induction ps as [|p ps IH]; cbn; [reflexivity|].
  destruct (Product.quantity p <=? Product.reorderLevel p); cbn; lia.
Qed.

Lemma filter_In_length {A} (f : A -> bool) (l : list A) (a : A) :
  In a l -> f a = true -> (0 < List.length (filter f l))%nat.
Proof.
  intros Hin Hf.
  assert (In a (filter f l)) as H by now apply filter_In.
  destruct (filter f l); [contradiction|cbn; lia].
Qed.

(** C7.  The summary's low-stock count is the number of products with
    [quantity <= reorderLevel] whatever their status: it does not change when
    the statuses do.  It is the number of rows of the low-stock report plus the
    number of such products that are not "Active", hence never smaller than
    the report, and larger as soon as one such product exists. *)
Theorem low_stock_count_covers_report (pg : page) (w : world)
    (ps : list Product.t) (txs : list StockTransaction.t) :
  holds pg w ps txs ->
  exists rows,
    built (buildLowStockReport pg) w rows /\
    lowStockItems ps =
      (List.length rows + List.length (filter inactive_low ps))%nat /\
    (List.length rows <= lowStockItems ps)%nat /\
    (forall st, lowStockItems (map (with_status st) ps) = lowStockItems ps) /\
    (forall p, In p ps ->
               Product.quantity p <= Product.reorderLevel p ->
               Product.status p <> "Active" ->
               (List.length rows < lowStockItems ps)%nat).
Proof.
  intros H. exists (map low_stock_row (filter is_low_stock ps)).
  split; [exact (built_low_stock pg w ps txs H)|].
  rewrite length_map.
  pose proof (lowStockItems_split ps) as Hs.
  split; [exact Hs|]. split; [lia|]. split.
  - intros st. apply lowStockItems_status.
  - intros p Hin Hle Hst.
    assert (inactive_low p = true) as Hp.
    { unfold inactive_low. apply andb_true_intro. split.
      - now apply Z.leb_le.
      - apply negb_true_iff. now apply String.eqb_neq. }
    pose proof (filter_In_length inactive_low ps p Hin Hp). lia.
Qed.

Lemma low_stock_count_covers_report_witness :
  let ps := [blank_supplier; with_status "Inactive" blank_supplier] in
  holds (fst (mounted ps [])) (snd (mounted ps [])) ps [] /\
  exists rows,
    built (buildLowStockReport (fst (mounted ps []))) (snd (mounted ps [])) rows /\
    lowStockItems ps =
      (List.length rows + List.length (filter inactive_low ps))%nat /\
    (List.length rows <= lowStockItems ps)%nat /\
    (forall st, lowStockItems (map (with_status st) ps) = lowStockItems ps) /\
    (forall p, In p ps ->
               Product.quantity p <= Product.reorderLevel p ->
               Product.status p <> "Active" ->
               (List.length rows < lowStockItems ps)%nat).
Proof.
  intros ps. split; [split; reflexivity|].
  apply (low_stock_count_covers_report _ _ ps []). split; reflexivity.
Defined.

(** ** The snapshots are only read *)

Lemma nth_error_grows {A} (l extra : list A) :
  forall i a, nth_error l i = Some a -> nth_error (l ++ extra) i = Some a.
Proof. intros i a. apply nth_error_grow. Qed.

(** C8.  Running any of the four report handlers, or the End of Day handler,
    succeeds and leaves the product and transaction arrays as they were; every
    array that existed before the run is unchanged, the valuation builder's
    [push] lands in the array the handler allocated itself. *)
Theorem snapshots_unchanged (k : report_kind) (e : env) (pg : page)
    (w : world) (ps : list Product.t) (txs : list StockTransaction.t) :
  holds pg w ps txs ->
  (exists w',
      action k e pg w = Some (tt, w') /\ holds pg w' ps txs /\
      forall r a, nth_error (heap w) r = Some a ->
                  nth_error (heap w') r = Some a) /\
  (exists w',
      endOfDay e pg w = Some (tt, w') /\ holds pg w' ps txs /\
      forall r a, nth_error (heap w) r = Some a ->
                  nth_error (heap w') r = Some a).
Proof.
  intros H. split.
  - eexists. split; [exact (action_run k e pg w ps txs H)|]. split.
    + now apply holds_grow.
    + cbn [heap]. apply nth_error_grows.
  - eexists. split; [exact (endOfDay_run e pg w ps txs H)|]. split.
    + rewrite <- app_assoc. now apply holds_grow.
    + cbn [heap]. intros r a Hr. now do 2 apply nth_error_grow.
Qed.

Lemma snapshots_unchanged_witness :
  holds (fst (mounted fractional_prices [])) (snd (mounted fractional_prices []))
    fractional_prices [] /\
  exists w',
    action Valuation some_env (fst (mounted fractional_prices []))
      (snd (mounted fractional_prices [])) = Some (tt, w') /\
    holds (fst (mounted fractional_prices [])) w' fractional_prices [].
Proof.
  assert (holds (fst (mounted fractional_prices []))
            (snd (mounted fractional_prices [])) fractional_prices [])
    as Hh by (split; reflexivity).
  split; [exact Hh|].
  destruct (snapshots_unchanged Valuation some_env _ _ _ _ Hh)
    as [(w' & Hrun & Hkeep & _) _].
  exists w'. split; assumption.
Defined.

(** ** The CSV text depends on the records alone *)

Lemma map_ext_Forall {A B} (f g : A -> B) (l : list A) :
  Forall (fun a => f a = g a) l -> map f l = map g l.
Proof.
  induction 1 as [|a l Ha _ IH]; cbn; [reflexivity|]. now rewrite Ha, IH.
Qed.

(** C10.  Two runs of a product report over equal product collections offer
    the same CSV text, whatever the clock, the locale, the transactions, the
    rest of the heap and the earlier events of either run.  The transaction
    report does so too once both runs see the same transactions and the two
    locales print their dates alike. *)
Theorem csv_content_deterministic (k : report_kind) (e1 e2 : env)
    (pg1 pg2 : page) (w1 w2 : world) (ps : list Product.t)
    (txs1 txs2 : list StockTransaction.t) :
  holds pg1 w1 ps txs1 ->
  holds pg2 w2 ps txs2 ->
  (k = TransactionHistory ->
   txs1 = txs2 /\
   Forall (fun tx =>
             toLocaleString e1 (StockTransaction.transactionDate tx) =
             toLocaleString e2 (StockTransaction.transactionDate tx)) txs1) ->
  exists w1' w2' evs1 evs2,
    action k e1 pg1 w1 = Some (tt, w1') /\
    action k e2 pg2 w2 = Some (tt, w2') /\
    log w1' = (log w1 ++ evs1)%list /\
    log w2' = (log w2 ++ evs2)%list /\
    contents evs1 = contents evs2.
Proof.
  intros H1 H2 Htx.
  assert (report_rows k e1 ps txs1 = report_rows k e2 ps txs2) as Hrows.
  { destruct k; try reflexivity.
    destruct (Htx eq_refl) as [<- Hloc]. cbn [report_rows].
    apply map_ext_Forall.
    apply Forall_impl with (2 := Hloc).
    intros tx Hd. unfold transaction_row. now rewrite Hd. }
  eexists. eexists. eexists. eexists.
  split; [exact (action_run k e1 pg1 w1 ps txs1 H1)|].
  split; [exact (action_run k e2 pg2 w2 ps txs2 H2)|].
  split; [reflexivity|]. split; [reflexivity|].
  rewrite !contents_export_events. now rewrite Hrows.
Qed.

Lemma csv_content_deterministic_witness :
  let w1 := snd (mounted fractional_prices []) in
  let pg1 := fst (mounted fractional_prices []) in
  let w2 := {| heap := [Rows []; Transactions []; Products fractional_prices];
               log := [ToastError "No data to export"] |} in
  let pg2 := {| products := 2%nat; transactions := 1%nat |} in
  holds pg1 w1 fractional_prices [] /\
  holds pg2 w2 fractional_prices [] /\
  exists w1' w2' evs1 evs2,
    action Valuation some_env pg1 w1 = Some (tt, w1') /\
    action Valuation other_env pg2 w2 = Some (tt, w2') /\
    log w1' = (log w1 ++ evs1)%list /\
    log w2' = (log w2 ++ evs2)%list /\
    contents evs1 = contents evs2.
Proof.
  intros w1 pg1 w2 pg2.
  split; [split; reflexivity|]. split; [split; reflexivity|].
  apply (csv_content_deterministic Valuation some_env other_env pg1 pg2 w1 w2
           fractional_prices [] []).
  - split; reflexivity.
  - split; reflexivity.
  - discriminate.
Defined.

(** ** CSV round trip *)

Section RoundTrip.

Import Text.

Lemma contents_app (l l' : list event) :
  contents (l ++ l') = (contents l ++ contents l')%list.
Proof.
  induction l as [|[msg|msg|name mime content] l IH]; cbn;
    [reflexivity|exact IH|exact IH|now rewrite IH].
Qed.

Lemma get_In (k : string) (r : row) (v : jsval) :
  get k r = Some v -> In (k, v) r.
Proof.
  induction r as [|[k' v'] r IH]; cbn; [discriminate|].
  destruct (String.eqb_spec k' k) as [->|Hne].
  - intros [= ->]. now left.
  - intros H. right. now apply IH.
Qed.

Lemma In_get (k : string) (r : row) (v : jsval) :
  NoDup (keys r) -> In (k, v) r -> get k r = Some v.
Proof.
  induction r as [|[k' v'] r IH]; cbn; [contradiction|].
  intros Hnd [Heq|Hin].
  - injection Heq as -> ->. now rewrite String.eqb_refl.
  - inversion Hnd as [|? ? Hnotin Hnd']; subst.
    destruct (String.eqb_spec k' k) as [->|Hne].
    + exfalso. apply Hnotin. unfold keys.
      change k with (fst (k, v)). now apply in_map.
    + now apply IH.
Qed.

Lemma cell_sep_free (r : row) (k : string) :
  clean_row r -> sep_free (cell r k).
Proof.
  intros Hc. unfold cell. destruct (get k r) as [v|] eqn:G.
  - apply get_In in G. unfold clean_row in Hc.
    rewrite Forall_forall in Hc. now destruct (Hc _ G) as [_ Hv].
  - split; reflexivity.
Qed.

Lemma keys_sep_free (r : row) :
  clean_row r -> Forall sep_free (keys r).
Proof.
  unfold clean_row, keys. intros H. apply Forall_map.
  apply Forall_impl with (2 := H). now intros kv [Hk _].
Qed.

Lemma cells_free (c : ascii) (headers : list string) (r : row) :
  (forall s, sep_free s -> free c s) ->
  clean_row r -> Forall (free c) (map (cell r) headers).
Proof.
  intros Hc Hr. apply Forall_map, Forall_forall.
  intros k _. now apply Hc, cell_sep_free.
Qed.

Lemma csv_line_free (headers : list string) (r : row) :
  clean_row r -> free newline (csv_line headers r).
Proof.
  intros Hr. unfold csv_line. apply join_free; [reflexivity|].
  apply cells_free; [now intros s [_ H]|assumption].
Qed.

Lemma split_csv_line (headers : list string) (r : row) :
  headers <> [] -> clean_row r ->
  split comma (csv_line headers r) = map (cell r) headers.
Proof.
  intros Hne Hr. unfold csv_line. apply split_join.
  - destruct headers; [congruence|discriminate].
  - apply cells_free; [now intros s [H _]|assumption].
Qed.

Lemma lines_of_csvContent (first : row) (data : list row) :
  clean_row first -> Forall clean_row data ->
  split newline (csvContent first data) =
  join "," (keys first) :: map (csv_line (keys first)) data.
Proof.
  intros Hf Hd. unfold csvContent. apply split_join; [discriminate|].
  constructor.
  - apply join_free; [reflexivity|].
    apply Forall_impl with (2 := keys_sep_free first Hf). now intros s [_ H].
  - apply Forall_map. apply Forall_impl with (2 := Hd).
    intros r Hr. now apply csv_line_free.
Qed.

Lemma parse_csvContent (first : row) (data : list row) :
  keys first <> [] -> clean_row first -> Forall clean_row data ->
  parse_csv (csvContent first data) =
  keys first :: map (fun r => map (cell r) (keys first)) data.
Proof.
  intros Hne Hf Hd. unfold parse_csv.
  rewrite lines_of_csvContent by assumption. cbn [map]. f_equal.
  - apply split_join; [assumption|].
    apply Forall_impl with (2 := keys_sep_free first Hf). now intros s [H _].
  - rewrite map_map. apply map_ext_Forall.
    apply Forall_impl with (2 := Hd).
    intros r Hr. now apply split_csv_line.
Qed.

Lemma cell_of_value (first r : row) (k : string) (v : jsval) :
  same_keys first r -> In (k, v) r ->
  In k (keys first) /\ cell r k = to_str v.
Proof.
  intros [Hnd Hkeys] Hin. split.
  - apply Hkeys. unfold keys. change k with (fst (k, v)). now apply in_map.
  - unfold cell. now rewrite (In_get k r v Hnd Hin).
Qed.

End RoundTrip.

Ltac nodup_strings :=
  repeat (constructor; [cbn; intuition discriminate|]); constructor.

(** C5, as amended.  For a row sequence with at least one column, whose rows
    all have the first row's keys and whose keys and printed values hold no
    comma and no newline: the first line of the CSV text is the first row's
    keys joined by commas, each following line is a row's values in that key
    order, and splitting the text on newlines and then on commas gives back
    the header and every row's values. *)
Theorem csv_round_trip (e : env) (w : world) (data : ref) (filename : string)
    (first : row) (rest : list row) :
  nth_error (heap w) data = Some (Rows (first :: rest)) ->
  keys first <> [] ->
  Forall clean_row (first :: rest) ->
  Forall (same_keys first) (first :: rest) ->
  exists w' text,
    downloadCSV e data filename w = Some (tt, w') /\
    contents (log w') = (contents (log w) ++ [text])%list /\
    Text.split Text.newline text =
      Text.join "," (keys first)
      :: map (fun r => Text.join "," (map (cell r) (keys first)))
           (first :: rest) /\
    parse_csv text =
      keys first :: map (fun r => map (cell r) (keys first)) (first :: rest) /\
    (forall r, In r (first :: rest) ->
       forall k v, In (k, v) r -> In k (keys first) /\ cell r k = to_str v).
Proof.
  intros Hd Hne Hclean Hsame.
  assert (clean_row first) as Hf by now inversion Hclean.
  eexists. exists (csvContent first (first :: rest)).
  split; [exact (downloadCSV_run e w data _ filename Hd)|].
  cbn [log]. split; [now rewrite contents_app, contents_export_events|].
  split; [now apply lines_of_csvContent|].
  split; [now apply parse_csvContent|].
  intros r Hr k v Hin. rewrite Forall_forall in Hsame.
  now apply (cell_of_value first r k v (Hsame r Hr)).
Qed.

Lemma csv_round_trip_witness :
  let w := {| heap := [Rows shuffled_rows]; log := [] |} in
  let first := [("SKU", JStr "A1"); ("Quantity", JInt 5)] in
  let rest := [[("Quantity", JInt 7); ("SKU", JStr "B2")]] in
  nth_error (heap w) 0 = Some (Rows (first :: rest)) /\
  keys first <> [] /\
  Forall clean_row (first :: rest) /\
  Forall (same_keys first) (first :: rest) /\
  exists w' text,
    downloadCSV some_env 0%nat "inventory_report" w = Some (tt, w') /\
    contents (log w') = (contents (log w) ++ [text])%list /\
    parse_csv text = [["SKU"; "Quantity"]; ["A1"; "5"]; ["B2"; "7"]].
Proof.
  intros w first rest.
  assert (nth_error (heap w) 0 = Some (Rows (first :: rest))) as H1
    by reflexivity.
  assert (keys first <> []) as H2 by discriminate.
  assert (Forall clean_row (first :: rest)) as H3.
  { repeat constructor. }
  assert (Forall (same_keys first) (first :: rest)) as H4.
  { repeat (constructor; [split; [nodup_strings|intros k; cbn; tauto]|]).
    constructor. }
  destruct (csv_round_trip some_env w 0%nat "inventory_report" first rest
              H1 H2 H3 H4) as (w' & text & Hrun & Hc & _ & Hp & _).
  split; [exact H1|]. split; [exact H2|]. split; [exact H3|].
  split; [exact H4|].
  exists w', text. split; [exact Hrun|]. split; [exact Hc|].
  rewrite Hp. reflexivity.
Defined.

(** C5 as stated fails on a row without keys, where splitting gives back one
    empty column instead of none, and on rows that do not share their keys,
    where a value is not printed at all. *)
Lemma csv_round_trip_counterexample :
  (exists w' text,
      downloadCSV some_env 0%nat "inventory_report"
        {| heap := [Rows [[]]]; log := [] |} = Some (tt, w') /\
      contents (log w') = [text] /\
      Forall clean_row [[]] /\
      parse_csv text = [[""]; [""]] /\
      parse_csv text <> keys [] :: map values [[]]) /\
  (exists w' text,
      downloadCSV some_env 0%nat "inventory_report"
        {| heap := [Rows ragged_rows]; log := [] |} = Some (tt, w') /\
      contents (log w') = [text] /\
      Forall clean_row ragged_rows /\
      parse_csv text = [["A"]; ["1"]; [""]] /\
      parse_csv text <> [["A"]; ["1"]; ["2"]]).
Proof.
  split.
  - eexists. eexists. split; [lazy; reflexivity|].
    split; [reflexivity|]. split; [repeat constructor|].
    split; [reflexivity|discriminate].
  - eexists. eexists. split; [lazy; reflexivity|].
    split; [reflexivity|]. split; [repeat constructor|].
    split; [reflexivity|discriminate].
Qed.

(** ** The two worked scenarios *)

Example scenario_one_product :
  option_map (fun r => log (snd r))
    (action LowStock some_env (fst (mounted [scenario_product] []))
       (snd (mounted [scenario_product] []))) =
  Some [ Download "low_stock_report_2024-03-09.csv" "text/csv"
           (Text.join (String Text.newline "")
              [ "SKU,Name,Category,Current Quantity,Reorder Level,Units Below Reorder,Location,Supplier";
                "A1,Bolt,Hardware,5,10,5,Aisle 2,N/A" ]);
         ToastSuccess "Report downloaded successfully" ] /\
  option_map (fun r => log (snd r))
    (action Valuation some_env (fst (mounted [scenario_product] []))
       (snd (mounted [scenario_product] []))) =
  Some [ Download "valuation_report_2024-03-09.csv" "text/csv"
           (Text.join (String Text.newline "")
              [ "SKU,Name,Category,Quantity,Unit Cost,Stock Value,Potential Revenue,Potential Profit";
                "A1,Bolt,Hardware,5,10.00,50.00,75.00,25.00";
                "TOTAL,,,0,,50.00,75.00,25.00" ]);
         ToastSuccess "Report downloaded successfully" ].
Proof. split; vm_compute; reflexivity. Qed.

Example scenario_no_products :
  option_map (fun r => log (snd r))
    (action Inventory some_env (fst (mounted [] [])) (snd (mounted [] []))) =
  Some [ToastError "No data to export"] /\
  option_map (fun r => log (snd r))
    (action Valuation some_env (fst (mounted [] [])) (snd (mounted [] []))) =
  Some [ Download "valuation_report_2024-03-09.csv" "text/csv"
           (Text.join (String Text.newline "")
              [ "SKU,Name,Category,Quantity,Unit Cost,Stock Value,Potential Revenue,Potential Profit";
                "TOTAL,,,0,,0.00,0.00,0.00" ]);
         ToastSuccess "Report downloaded successfully" ].
Proof. split; vm_compute; reflexivity. Qed.

(** * Further properties of the page *)

(** ** Every report leaves its rows in a fresh array *)

Lemma built_report (k : report_kind) (e : env) (pg : page) (w : world)
    (ps : list Product.t) (txs : list StockTransaction.t) :
  holds pg w ps txs -> built (builder k e pg) w (report_rows k e ps txs).
Proof.
  intros H. destruct k; cbn [builder report_rows].
  - exact (built_inventory pg w ps txs H).
  - exact (built_low_stock pg w ps txs H).
  - exact (built_transaction pg w ps txs H e).
  - exact (built_valuation pg w ps txs H).
Qed.

Lemma built_unique (m : M ref) (w : world) (rows rows' : list row) :
  built m w rows -> built m w rows' -> rows = rows'.
Proof.
  intros (r & w1 & Hm & Hr) (r' & w1' & Hm' & Hr').
  rewrite Hm in Hm'. injection Hm' as <- <-. congruence.
Qed.

(** ** Transaction report *)

Lemma transaction_row_ok (e : env) (tx : StockTransaction.t) :
  transaction_row_of e tx (transaction_row (toLocaleString e) tx).
Proof.
  unfold transaction_row_of. do 5 (split; [reflexivity|]). split.
  - intros [Hs|Hs]; cbn; now rewrite Hs.
  - intros s Hs Hne. cbn. now rewrite Hs, or_default_some.
Qed.

(** X1.  The transaction builder returns one row per transaction, in the
    order of the collection, none left out.  A row carries the date as the
    locale prints it, the product, the type, the quantity and the user; its
    Reason is the transaction's reason, or "N/A" when the reason is absent or
    the empty string. *)
Theorem transaction_report_rows (e : env) (pg : page) (w : world)
    (ps : list Product.t) (txs : list StockTransaction.t) :
  holds pg w ps txs ->
  exists rows,
    built (buildTransactionReport e pg) w rows /\
    List.length rows = List.length txs /\
    Forall2 (transaction_row_of e) txs rows.
Proof.
  intros H. exists (map (transaction_row (toLocaleString e)) txs).
  split; [|split].
  - exact (built_transaction pg w ps txs H e).
  - apply length_map.
  - apply Forall2_map_same. intros tx. apply transaction_row_ok.
Qed.

Lemma transaction_report_rows_witness :
  holds (fst (mounted [] [sale])) (snd (mounted [] [sale])) [] [sale] /\
  exists rows,
    built (buildTransactionReport us_env (fst (mounted [] [sale])))
      (snd (mounted [] [sale])) rows /\
    List.length rows = List.length [sale] /\
    Forall2 (transaction_row_of us_env) [sale] rows.
Proof.
  split; [split; reflexivity|].
  apply (transaction_report_rows us_env _ _ [] [sale]). split; reflexivity.
Defined.

(** ** Columns *)

Lemma report_rows_keys (k : report_kind) (e : env)
    (ps : list Product.t) (txs : list StockTransaction.t) :
  Forall (fun r => keys r = columns k) (report_rows k e ps txs).
Proof.
  destruct k; cbn [report_rows columns].
  - apply Forall_map, Forall_forall. reflexivity.
  - apply Forall_map, Forall_forall. reflexivity.
  - apply Forall_map, Forall_forall. reflexivity.
  - apply Forall_app. split.
    + apply Forall_map, Forall_forall. reflexivity.
    + now constructor.
Qed.

Lemma columns_NoDup (k : report_kind) : NoDup (columns k).
Proof. destruct k; cbn [columns]; nodup_strings. Qed.

Lemma columns_not_nil (k : report_kind) : columns k <> [].
Proof. destruct k; discriminate. Qed.

(** X3.  The rows a builder returns all have the same property names, in the
    same order: the columns of the report, each once and at least one.  So any
    row of a report can stand for the others when the serializer reads the
    header off the first one. *)
Theorem report_rows_uniform (k : report_kind) (e : env) (pg : page)
    (w : world) (ps : list Product.t) (txs : list StockTransaction.t) :
  holds pg w ps txs ->
  exists rows,
    built (builder k e pg) w rows /\
    Forall (fun r => keys r = columns k) rows /\
    NoDup (columns k) /\ columns k <> [] /\
    (forall first, In first rows -> Forall (same_keys first) rows).
Proof.
  intros H. exists (report_rows k e ps txs).
  pose proof (report_rows_keys k e ps txs) as Hk.
  split; [now apply built_report|]. split; [exact Hk|].
  split; [apply columns_NoDup|]. split; [apply columns_not_nil|].
  intros first Hin. rewrite Forall_forall in Hk |- *.
  intros r Hr. unfold same_keys. rewrite (Hk r Hr), (Hk first Hin).
  split; [apply columns_NoDup|tauto].
Qed.

Lemma report_rows_uniform_witness :
  holds (fst (mounted fractional_prices [])) (snd (mounted fractional_prices []))
    fractional_prices [] /\
  exists rows,
    built (builder Valuation some_env (fst (mounted fractional_prices [])))
      (snd (mounted fractional_prices [])) rows /\
    Forall (fun r => keys r = columns Valuation) rows /\
    NoDup (columns Valuation) /\ columns Valuation <> [] /\
    (forall first, In first rows -> Forall (same_keys first) rows).
Proof.
  split; [split; reflexivity|].
  apply (report_rows_uniform Valuation some_env _ _ fractional_prices []).
  split; reflexivity.
Defined.

(** X2.  Whatever the records are, a file a report offers starts with the
    report's header line: its column names joined by commas, in the order of
    the object literal, followed by a newline. *)
Theorem export_header (k : report_kind) (e : env) (pg : page) (w : world)
    (ps : list Product.t) (txs : list StockTransaction.t) :
  holds pg w ps txs ->
  exists w' evs,
    action k e pg w = Some (tt, w') /\ log w' = (log w ++ evs)%list /\
    forall name mime content,
      In (Download name mime content) evs ->
      exists body,
        content = Text.join "," (columns k) ++ String Text.newline body.
Proof.
  intros H. eexists. eexists.
  split; [exact (action_run k e pg w ps txs H)|]. split; [reflexivity|].
  intros name mime content Hin.
  apply export_events_download in Hin as (_ & _ & first & rest & Hrows & ->).
  pose proof (report_rows_keys k e ps txs) as Hk.
  rewrite Hrows in Hk |- *. inversion Hk as [|? ? Hfirst _]; subst.
  unfold csvContent. rewrite Hfirst.
  exists (Text.join (String Text.newline "")
            (map (csv_line (columns k)) (first :: rest))).
  reflexivity.
Qed.

Lemma export_header_witness :
  holds (fst (mounted [] [])) (snd (mounted [] [])) [] [] /\
  exists w' evs,
    action Valuation some_env (fst (mounted [] [])) (snd (mounted [] [])) =
      Some (tt, w') /\
    log w' = (log (snd (mounted [] [])) ++ evs)%list /\
    forall name mime content,
      In (Download name mime content) evs ->
      exists body,
        content =
        Text.join "," (columns Valuation) ++ String Text.newline body.
Proof.
  split; [split; reflexivity|].
  apply (export_header Valuation some_env _ _ [] []). split; reflexivity.
Defined.

(** ** When an export offers a file *)

Lemma report_rows_has_rows (k : report_kind) (e : env)
    (ps : list Product.t) (txs : list StockTransaction.t) :
  report_rows k e ps txs <> [] <-> has_rows k ps txs.
Proof.
  destruct k; cbn [report_rows has_rows].
  - destruct ps; cbn; split; congruence.
  - split.
    + intros Hne. destruct (filter is_low_stock ps) as [|p l] eqn:E;
        [now contradiction Hne|].
      assert (In p (filter is_low_stock ps)) as Hin by (rewrite E; now left).
      apply filter_In in Hin as [Hin Hlow].
      exists p. split; [exact Hin|]. now apply is_low_stock_iff.
    + intros (p & Hin & Hlow) Hnil.
      assert (In p (filter is_low_stock ps)) as Hf.
      { apply filter_In. split; [exact Hin|]. now apply is_low_stock_iff. }
      destruct (filter is_low_stock ps); [contradiction|discriminate].
  - destruct txs; cbn; split; congruence.
  - split; [trivial|]. intros _ Hnil.
    apply app_eq_nil in Hnil as [_ Hnil]. discriminate.
Qed.

(** X4.  An export does one of two things.  When its report has a row
    (a product for the inventory report, an "Active" product at or below its
    reorder level for the low-stock report, a transaction for the transaction
    report, always for the valuation report) it offers exactly one file, named
    after the report and the date, and then announces the download.
    Otherwise it shows the "No data to export" error and nothing else. *)
Theorem export_outcome (k : report_kind) (e : env) (pg : page) (w : world)
    (ps : list Product.t) (txs : list StockTransaction.t) :
  holds pg w ps txs ->
  exists w' evs,
    action k e pg w = Some (tt, w') /\ log w' = (log w ++ evs)%list /\
    ((has_rows k ps txs /\
      exists content,
        evs = [ Download (report_id k ++ "_" ++ date_part e ++ ".csv")
                  "text/csv" content;
                ToastSuccess "Report downloaded successfully" ]) \/
     (~ has_rows k ps txs /\ evs = [ToastError "No data to export"])).
Proof.
  intros H. eexists. eexists.
  split; [exact (action_run k e pg w ps txs H)|]. split; [reflexivity|].
  pose proof (report_rows_has_rows k e ps txs) as Hiff.
  destruct (report_rows k e ps txs) as [|first rest] eqn:E.
  - right. split; [|reflexivity]. intros Hhas. now apply Hiff in Hhas.
  - left. split; [apply Hiff; discriminate|].
    now exists (csvContent first (first :: rest)).
Qed.

Lemma export_outcome_witness :
  holds (fst (mounted [scenario_product] []))
    (snd (mounted [scenario_product] [])) [scenario_product] [] /\
  exists w' evs,
    action TransactionHistory some_env (fst (mounted [scenario_product] []))
      (snd (mounted [scenario_product] [])) = Some (tt, w') /\
    log w' = (log (snd (mounted [scenario_product] [])) ++ evs)%list /\
    ((has_rows TransactionHistory [scenario_product] [] /\
      exists content,
        evs = [ Download (report_id TransactionHistory ++ "_"
                          ++ date_part some_env ++ ".csv")
                  "text/csv" content;
                ToastSuccess "Report downloaded successfully" ]) \/
     (~ has_rows TransactionHistory [scenario_product] [] /\
      evs = [ToastError "No data to export"])).
Proof.
  split; [split; reflexivity|].
  apply (export_outcome TransactionHistory some_env _ _ [scenario_product] []).
  split; reflexivity.
Defined.

(** ** End of Day, case by case *)

(** X5.  What the End of Day handler shows depends on the products alone.
    With products of which none is low on stock it offers the inventory file,
    announces the download, then shows "No data to export" for the low-stock
    report and still ends on "End of Day reports generated".  With a low-stock
    product it offers two files, the inventory one first.  It never offers the
    low-stock file without the inventory file. *)
Theorem end_of_day_outcome (e : env) (pg : page) (w : world)
    (ps : list Product.t) (txs : list StockTransaction.t) :
  holds pg w ps txs ->
  exists w' evs,
    endOfDay e pg w = Some (tt, w') /\ log w' = (log w ++ evs)%list /\
    (ps <> [] -> ~ has_rows LowStock ps txs ->
     exists content,
       evs = [ Download ("inventory_report" ++ "_" ++ date_part e ++ ".csv")
                 "text/csv" content;
               ToastSuccess "Report downloaded successfully";
               ToastError "No data to export";
               ToastSuccess "End of Day reports generated" ]) /\
    (has_rows LowStock ps txs ->
     exists content content',
       evs = [ Download ("inventory_report" ++ "_" ++ date_part e ++ ".csv")
                 "text/csv" content;
               ToastSuccess "Report downloaded successfully";
               Download ("low_stock_report" ++ "_" ++ date_part e ++ ".csv")
                 "text/csv" content';
               ToastSuccess "Report downloaded successfully";
               ToastSuccess "End of Day reports generated" ]).
Proof.
  intros H. eexists. eexists.
  split; [exact (endOfDay_run e pg w ps txs H)|].
  cbn [log]. split; [rewrite <- !app_assoc; reflexivity|].
  pose proof (report_rows_has_rows Inventory e ps txs) as Hinv.
  pose proof (report_rows_has_rows LowStock e ps txs) as Hlow.
  split.
  - intros Hps Hnone.
    destruct (report_rows Inventory e ps txs) as [|first rest] eqn:Ei;
      [exfalso; apply Hinv in Hps; congruence|].
    destruct (report_rows LowStock e ps txs) as [|first' rest'] eqn:El;
      [|exfalso; apply Hnone, Hlow; discriminate].
    now exists (csvContent first (first :: rest)).
  - intros Hsome.
    assert (ps <> []) as Hps.
    { destruct Hsome as (p & Hin & _). now destruct ps. }
    destruct (report_rows Inventory e ps txs) as [|first rest] eqn:Ei;
      [exfalso; apply Hinv in Hps; congruence|].
    destruct (report_rows LowStock e ps txs) as [|first' rest'] eqn:El;
      [exfalso; apply Hlow in Hsome; congruence|].
    now exists (csvContent first (first :: rest)),
               (csvContent first' (first' :: rest')).
Qed.

Lemma end_of_day_outcome_witness :
  let ps := [with_status "Inactive" blank_supplier] in
  holds (fst (mounted ps [])) (snd (mounted ps [])) ps [] /\
  ps <> [] /\ ~ has_rows LowStock ps [] /\
  exists w' evs,
    endOfDay some_env (fst (mounted ps [])) (snd (mounted ps [])) =
      Some (tt, w') /\
    log w' = (log (snd (mounted ps [])) ++ evs)%list /\
    exists content,
      evs = [ Download ("inventory_report" ++ "_" ++ date_part some_env
                        ++ ".csv") "text/csv" content;
              ToastSuccess "Report downloaded successfully";
              ToastError "No data to export";
              ToastSuccess "End of Day reports generated" ].
Proof.
  intros ps.
  assert (holds (fst (mounted ps [])) (snd (mounted ps [])) ps []) as Hh
    by (split; reflexivity).
  assert (ps <> []) as Hne by discriminate.
  assert (~ has_rows LowStock ps []) as Hnone.
  { intros (p & [<-|[]] & Hst & _). discriminate. }
  destruct (end_of_day_outcome some_env _ _ ps [] Hh)
    as (w' & evs & Hrun & Hlog & Hmixed & _).
  split; [exact Hh|]. split; [exact Hne|]. split; [exact Hnone|].
  exists w', evs. split; [exact Hrun|]. split; [exact Hlog|].
  exact (Hmixed Hne Hnone).
Defined.

(** ** Printed numbers hold no separator *)

Section NumberText.

Import Digits Text Number.

Variable c : ascii.
Hypothesis Hplain : plain c.

Lemma free_append (a b : string) : free c a -> free c b -> free c (a ++ b).
Proof.
  unfold free. intros Ha Hb. now rewrite contains_app, Ha, Hb.
Qed.

Lemma free_cons (a : ascii) (s : string) :
  Ascii.eqb a c = false -> free c s -> free c (String a s).
Proof. unfold free. cbn [contains]. now intros -> ->. Qed.

Lemma free_empty : free c "".
Proof. reflexivity. Qed.

Lemma plain_digit (a : ascii) : is_digit a = true -> Ascii.eqb a c = false.
Proof. destruct Hplain as [Hd _]. now apply is_digit_not. Qed.

Lemma plain_other :
  Ascii.eqb "." c = false /\ Ascii.eqb "e" c = false /\
  Ascii.eqb "+" c = false /\ Ascii.eqb "-" c = false /\
  free c "NaN" /\ free c "Infinity".
Proof.
  destruct Hplain as [_ Hf]. unfold free in *. cbn [contains] in *.
  repeat (apply orb_false_elim in Hf as [? Hf]).
  repeat split; try assumption;
    repeat match goal with E : _ = false |- _ => rewrite E; clear E end;
    reflexivity.
Qed.

Lemma digits_free (n : Z) : free c (digits n).
Proof.
  destruct Hplain as [Hd _].
  apply all_digits_free; [exact Hd|apply all_digits_digits].
Qed.

Lemma zeros_free (n : nat) : free c (zeros n).
Proof.
  induction n as [|n IH]; [reflexivity|].
  cbn [zeros]. apply free_cons; [now apply plain_digit|exact IH].
Qed.

Lemma substring_free (n m : nat) (s : string) :
  free c s -> free c (substring n m s).
Proof.
  unfold free. revert n m. induction s as [|a s IH]; intros n m H.
  - destruct n, m; reflexivity.
  - cbn [contains] in H. apply orb_false_elim in H as [Ha Hs].
    destruct n as [|n]; [destruct m as [|m]|]; cbn [substring contains].
    + reflexivity.
    + now rewrite Ha, IH.
    + now apply IH.
Qed.

Lemma layout_free (ds : string) (n : Z) : free c ds -> free c (layout ds n).
Proof.
  intros Hds. destruct plain_other as (Hdot & He & Hplus & Hminus & _).
  assert (Ascii.eqb "0" c = false) as Hzero by now apply plain_digit.
  unfold layout, substring_from.
  repeat match goal with
         | |- free c (if ?b then _ else _) => destruct b
         | |- free c (_ ++ _) => apply free_append
         | |- free c (String _ _) => apply free_cons
         | |- free c (substring _ _ _) => apply substring_free
         | |- free c (zeros _) => apply zeros_free
         | |- free c (digits _) => apply digits_free
         | |- free c "" => reflexivity
         | |- _ => assumption
         end.
Qed.

Lemma sign_free (s : bool) : free c (sign_string s).
Proof.
  destruct plain_other as (_ & _ & _ & Hminus & _).
  destruct s; [now apply free_cons|reflexivity].
Qed.

Lemma finite_to_string_free (m : positive) (e : Z) :
  free c (finite_to_string m e).
Proof.
  unfold finite_to_string. destruct (shortest m e) as [s n].
  apply layout_free, digits_free.
Qed.

Lemma fixed2_string_free (n : Z) : free c (fixed2_string n).
Proof.
  destruct plain_other as (Hdot & _).
  assert (0 <= n mod 100 < 100) as H100 by (apply Z.mod_pos_bound; lia).
  assert (0 <= n mod 10 < 10) as H10 by (apply Z.mod_pos_bound; lia).
  assert (0 <= n mod 100 / 10 < 10) as Hd1.
  { split; [apply Z.div_pos; lia|apply Z.div_lt_upper_bound; lia]. }
  unfold fixed2_string. apply free_append; [apply digits_free|].
  cbn [append]. apply free_cons; [exact Hdot|].
  apply free_cons; [apply plain_digit, is_digit_digit; exact Hd1|].
  apply free_cons; [apply plain_digit, is_digit_digit; exact H10|].
  reflexivity.
Qed.

Lemma sf_to_string_free (x : spec_float) : free c (sf_to_string x).
Proof.
  destruct plain_other as (_ & _ & _ & _ & Hnan & Hinf).
  assert (Ascii.eqb "0" c = false) as Hzero by now apply plain_digit.
  destruct x as [s|s| |s m e]; cbn [sf_to_string].
  - now apply free_cons.
  - apply free_append; [apply sign_free|exact Hinf].
  - exact Hnan.
  - apply free_append; [apply sign_free|apply finite_to_string_free].
Qed.

Lemma sf_toFixed2_free (x : spec_float) : free c (sf_toFixed2 x).
Proof.
  destruct plain_other as (Hdot & _).
  assert (Ascii.eqb "0" c = false) as Hzero by now apply plain_digit.
  destruct x as [s|s| |s m e]; cbn [sf_toFixed2];
    try apply sf_to_string_free.
  - repeat apply free_cons; try assumption. reflexivity.
  - apply free_append; [apply sign_free|].
    destruct (ge_1e21 m e);
      [apply finite_to_string_free|apply fixed2_string_free].
Qed.

End NumberText.

Lemma plain_comma : plain Text.comma.
Proof. split; reflexivity. Qed.

Lemma plain_newline : plain Text.newline.
Proof. split; reflexivity. Qed.

Lemma number_sep_free (x : float) :
  sep_free (Number.to_string x) /\ sep_free (Number.toFixed2 x).
Proof.
  unfold sep_free, Number.to_string, Number.toFixed2.
  repeat split;
    first [ apply sf_to_string_free | apply sf_toFixed2_free ];
    first [ exact plain_comma | exact plain_newline ].
Qed.

(** ** Reports of clean records read back *)

Lemma or_default_sep_free (o : option string) :
  (forall s, o = Some s -> sep_free s) -> sep_free (or_default o "N/A").
Proof.
  intros H. destruct o as [[|a s]|]; cbn [or_default];
    first [ now apply H | split; reflexivity ].
Qed.

Ltac clean_entries :=
  unfold clean_row;
  repeat (constructor;
          [ split;
            [ split; reflexivity
            | cbn [snd to_str];
              first [ assumption
                    | apply number_sep_free
                    | now apply or_default_sep_free
                    | split; reflexivity ] ] | ]);
  constructor.

Lemma inventory_row_clean (p : Product.t) :
  clean_product p -> clean_row (inventory_row p).
Proof. intros (? & ? & ? & ? & ? & ? & ?). unfold inventory_row. clean_entries. Qed.

Lemma low_stock_row_clean (p : Product.t) :
  clean_product p -> clean_row (low_stock_row p).
Proof. intros (? & ? & ? & ? & ? & ? & ?). unfold low_stock_row. clean_entries. Qed.

Lemma valuation_row_clean (p : Product.t) :
  clean_product p -> clean_row (valuation_row p).
Proof. intros (? & ? & ? & ? & ? & ? & ?). unfold valuation_row. clean_entries. Qed.

Lemma total_row_clean (ps : list Product.t) : clean_row (total_row ps).
Proof. unfold total_row. clean_entries. Qed.

Lemma transaction_row_clean (e : env) (tx : StockTransaction.t) :
  clean_transaction e tx -> clean_row (transaction_row (toLocaleString e) tx).
Proof. intros (? & ? & ? & ? & ?). unfold transaction_row. clean_entries. Qed.

Lemma Forall_filter {A} (P : A -> Prop) (f : A -> bool) (l : list A) :
  Forall P l -> Forall P (filter f l).
Proof.
  intros H. apply Forall_forall. intros a Ha.
  apply filter_In in Ha as [Ha _]. rewrite Forall_forall in H. now apply H.
Qed.

Lemma report_rows_clean (k : report_kind) (e : env)
    (ps : list Product.t) (txs : list StockTransaction.t) :
  Forall clean_product ps -> Forall (clean_transaction e) txs ->
  Forall clean_row (report_rows k e ps txs).
Proof.
  intros Hp Ht. destruct k; cbn [report_rows].
  - apply Forall_map. apply Forall_impl with (2 := Hp).
    apply inventory_row_clean.
  - apply Forall_map, Forall_filter. apply Forall_impl with (2 := Hp).
    apply low_stock_row_clean.
  - apply Forall_map. apply Forall_impl with (2 := Ht).
    apply transaction_row_clean.
  - apply Forall_app. split.
    + apply Forall_map. apply Forall_impl with (2 := Hp).
      apply valuation_row_clean.
    + constructor; [apply total_row_clean|constructor].
Qed.

(** X6.  When no text field of the records (and no date as the locale prints
    it) holds a comma or a newline, the file a report offers reads back:
    splitting it on newlines and then on commas gives the report's column
    names followed by the cells of each row the builder returned, in order.
    The numbers need no condition: neither [toFixed(2)] nor the default
    printing of a number produces a comma or a newline. *)
Theorem report_round_trip (k : report_kind) (e : env) (pg : page) (w : world)
    (ps : list Product.t) (txs : list StockTransaction.t) :
  holds pg w ps txs ->
  Forall clean_product ps ->
  Forall (clean_transaction e) txs ->
  exists w' evs rows,
    action k e pg w = Some (tt, w') /\ log w' = (log w ++ evs)%list /\
    built (builder k e pg) w rows /\
    forall text,
      In text (contents evs) ->
      parse_csv text = columns k :: map (fun r => map (cell r) (columns k)) rows.
Proof.
  intros H Hp Ht. eexists. eexists. exists (report_rows k e ps txs).
  split; [exact (action_run k e pg w ps txs H)|]. split; [reflexivity|].
  split; [now apply built_report|].
  intros text Hin. rewrite contents_export_events in Hin.
  pose proof (report_rows_keys k e ps txs) as Hk.
  pose proof (report_rows_clean k e ps txs Hp Ht) as Hc.
  destruct (report_rows k e ps txs) as [|first rest]; [contradiction|].
  destruct Hin as [<-|[]].
  inversion Hk as [|? ? Hfirst _]; subst.
  inversion Hc as [|? ? Hcf _]; subst.
  rewrite <- Hfirst. apply parse_csvContent; try assumption.
  rewrite Hfirst. apply columns_not_nil.
Qed.

Lemma report_round_trip_witness :
  holds (fst (mounted fractional_prices [])) (snd (mounted fractional_prices []))
    fractional_prices [] /\
  Forall clean_product fractional_prices /\
  Forall (clean_transaction some_env) [] /\
  exists w' evs rows,
    action Valuation some_env (fst (mounted fractional_prices []))
      (snd (mounted fractional_prices [])) = Some (tt, w') /\
    log w' = (log (snd (mounted fractional_prices [])) ++ evs)%list /\
    built (builder Valuation some_env (fst (mounted fractional_prices [])))
      (snd (mounted fractional_prices [])) rows /\
    forall text,
      In text (contents evs) ->
      parse_csv text =
      columns Valuation :: map (fun r => map (cell r) (columns Valuation)) rows.
Proof.
  assert (holds (fst (mounted fractional_prices []))
            (snd (mounted fractional_prices [])) fractional_prices [])
    as Hh by (split; reflexivity).
  assert (Forall clean_product fractional_prices) as Hp.
  { repeat (constructor;
            [ unfold clean_product, priced;
              cbn [Product.sku Product.name Product.categoryName Product.unit
                   Product.location Product.status Product.supplier];
              do 6 (split; [split; reflexivity|]);
              intros s [= <-]; split; reflexivity | ]).
    constructor. }
  assert (Forall (clean_transaction some_env) []) as Ht by constructor.
  split; [exact Hh|]. split; [exact Hp|]. split; [exact Ht|].
  exact (report_round_trip Valuation some_env _ _ _ _ Hh Hp Ht).
Defined.

(** ** Commas are never quoted *)

Section Counting.

Import Text.

Variable c : ascii.

Lemma split_length (s : string) :
  List.length (split c s) = S (count c s).
Proof.
  induction s as [|a s IH]; cbn [split count]; [reflexivity|].
  destruct (Ascii.eqb a c); cbn [List.length]; [now rewrite IH|].
  destruct (split c s) as [|piece rest]; [discriminate|exact IH].
Qed.

Lemma count_append (a b : string) :
  count c (a ++ b) = (count c a + count c b)%nat.
Proof.
  induction a as [|x a IH]; cbn; [reflexivity|]. rewrite IH. lia.
Qed.

Lemma count_free (s : string) : free c s -> count c s = 0%nat.
Proof.
  unfold free. induction s as [|a s IH]; cbn; [reflexivity|].
  intros H. apply orb_false_elim in H as [-> Hs]. now rewrite IH.
Qed.

Lemma count_join (l : list string) :
  l <> [] ->
  S (count c (join (String c "") l)) = (List.length l + count_all c l)%nat.
Proof.
  induction l as [|x l IH]; [congruence|]. intros _.
  destruct l as [|y l].
  - cbn. lia.
  - change (join (String c "") (x :: y :: l))
      with (x ++ String c (join (String c "") (y :: l))).
    rewrite count_append. cbn [count]. rewrite Ascii.eqb_refl.
    assert (y :: l <> []) as Hne by discriminate.
    specialize (IH Hne). cbn [List.length count_all] in *. lia.
Qed.

Lemma split_join_length (l : list string) :
  l <> [] ->
  List.length (split c (join (String c "") l)) =
  (List.length l + count_all c l)%nat.
Proof. intros H. rewrite split_length. now apply count_join. Qed.

End Counting.

Section OneLine.

Import Text.

Lemma cell_one_line (r : row) (k : string) :
  one_line_row r -> free newline (cell r k).
Proof.
  intros Hc. unfold cell. destruct (get k r) as [v|] eqn:G; [|reflexivity].
  apply get_In in G. unfold one_line_row in Hc.
  rewrite Forall_forall in Hc. now destruct (Hc _ G) as [_ Hv].
Qed.

Lemma csv_line_one_line (headers : list string) (r : row) :
  one_line_row r -> free newline (csv_line headers r).
Proof.
  intros Hr. unfold csv_line. apply join_free; [reflexivity|].
  apply Forall_map, Forall_forall. intros k _. now apply cell_one_line.
Qed.

Lemma lines_of_one_line_rows (first : row) (data : list row) :
  one_line_row first -> Forall one_line_row data ->
  split newline (csvContent first data) =
  join "," (keys first) :: map (csv_line (keys first)) data.
Proof.
  intros Hf Hd. unfold csvContent. apply split_join; [discriminate|].
  constructor.
  - apply join_free; [reflexivity|].
    unfold one_line_row, keys in *. apply Forall_map.
    apply Forall_impl with (2 := Hf). now intros kv [Hk _].
  - apply Forall_map. apply Forall_impl with (2 := Hd).
    intros r Hr. now apply csv_line_one_line.
Qed.

Lemma field_counts (first : row) (data : list row) :
  keys first <> [] -> one_line_row first -> Forall one_line_row data ->
  map (@List.length string) (parse_csv (csvContent first data)) =
  (List.length (keys first) + count_all comma (keys first))%nat
  :: map (fun r => (List.length (keys first)
                    + count_all comma (map (cell r) (keys first)))%nat) data.
Proof.
  intros Hne Hf Hd. unfold parse_csv.
  rewrite lines_of_one_line_rows by assumption.
  cbn [map]. f_equal.
  - now apply split_join_length.
  - rewrite !map_map. apply map_ext. intros r. unfold csv_line.
    rewrite split_join_length, length_map; [reflexivity|].
    destruct (keys first); [congruence|discriminate].
Qed.

End OneLine.



(** ** A locale that prints dates with a comma *)

Lemma comma_dated_one_line (e : env) (tx : StockTransaction.t) :
  comma_dated e tx -> one_line_row (transaction_row (toLocaleString e) tx).
Proof.
  intros (_ & Hnl & [_ ?] & [_ ?] & [_ ?] & Hr).
  assert (Text.free Text.newline
            (or_default (StockTransaction.reason tx) "N/A")) as Hreason
    by (apply or_default_sep_free, Hr).
  unfold transaction_row, one_line_row.
  repeat (constructor;
          [ split;
            [ reflexivity
            | cbn [snd to_str];
              first [ assumption | apply number_sep_free ] ] | ]).
  constructor.
Qed.

Lemma comma_dated_cells (e : env) (tx : StockTransaction.t) :
  comma_dated e tx ->
  count_all Text.comma
    (map (cell (transaction_row (toLocaleString e) tx))
       (columns TransactionHistory)) = 1%nat.
Proof.
  intros (Hone & _ & [Hp _] & [Ht _] & [Hu _] & Hr).
  assert (Text.free Text.comma
            (or_default (StockTransaction.reason tx) "N/A")) as Hreason
    by (apply or_default_sep_free, Hr).
  cbn [columns map count_all]. unfold cell. cbn [transaction_row get String.eqb Ascii.eqb Bool.eqb to_str].
  rewrite Hone.
  rewrite !count_free;
    first [ reflexivity | assumption | apply number_sep_free ].
Qed.

(** X8.  Under a locale that prints a date with a comma (as en-US does,
    "3/9/2024, 10:11:12 AM"), every data line of the transaction report holds
    seven fields under a header of six: the Date cell is split in two and the
    cells after it sit one column to the right. *)
Theorem transaction_dates_split (e : env) (pg : page) (w : world)
    (ps : list Product.t) (txs : list StockTransaction.t) :
  holds pg w ps txs ->
  txs <> [] ->
  Forall (comma_dated e) txs ->
  exists w' text,
    action TransactionHistory e pg w = Some (tt, w') /\
    contents (log w') = (contents (log w) ++ [text])%list /\
    map (@List.length string) (parse_csv text) =
    6%nat :: map (fun _ => 7%nat) txs.
Proof.
  intros H Hne Hall.
  destruct txs as [|tx rest]; [congruence|].
  set (trow := transaction_row (toLocaleString e)).
  eexists. exists (csvContent (trow tx) (map trow (tx :: rest))).
  split; [exact (action_run TransactionHistory e pg w ps (tx :: rest) H)|].
  cbn [log]. split; [now rewrite contents_app, contents_export_events|].
  assert (Forall one_line_row (map trow (tx :: rest))) as Hlines.
  { apply Forall_map. apply Forall_impl with (2 := Hall).
    apply comma_dated_one_line. }
  rewrite field_counts;
    [|discriminate|now inversion Hlines|exact Hlines].
  change (keys (trow tx)) with (columns TransactionHistory).
  f_equal. rewrite map_map. apply map_ext_Forall.
  apply Forall_impl with (2 := Hall). intros t Ht.
  unfold trow. now rewrite (comma_dated_cells e t Ht).
Qed.

Lemma transaction_dates_split_witness :
  holds (fst (mounted [] [sale])) (snd (mounted [] [sale])) [] [sale] /\
  [sale] <> [] /\
  Forall (comma_dated us_env) [sale] /\
  exists w' text,
    action TransactionHistory us_env (fst (mounted [] [sale]))
      (snd (mounted [] [sale])) = Some (tt, w') /\
    contents (log w') = (contents (log (snd (mounted [] [sale]))) ++ [text])%list /\
    map (@List.length string) (parse_csv text) =
    6%nat :: map (fun _ => 7%nat) [sale].
Proof.
  assert (holds (fst (mounted [] [sale])) (snd (mounted [] [sale])) [] [sale])
    as Hh by (split; reflexivity).
  assert ([sale] <> []) as Hne by discriminate.
  assert (Forall (comma_dated us_env) [sale]) as Hc.
  { constructor; [|constructor]. unfold comma_dated.
    split; [reflexivity|]. split; [reflexivity|].
    do 3 (split; [split; reflexivity|]).
    intros s [= <-]. split; reflexivity. }
  split; [exact Hh|]. split; [exact Hne|]. split; [exact Hc|].
  exact (transaction_dates_split us_env _ _ _ _ Hh Hne Hc).
Defined.

(** ** Only the first row's keys are exported *)







(** ** Defaulted columns *)

Lemma or_default_not_empty (o : option string) (d : string) :
  d <> "" -> or_default o d <> "".
Proof. intros Hd. destruct o as [[|a s]|]; cbn; congruence. Qed.

(** X10.  The two defaulted columns are never blank: every row of the
    low-stock report has a non-empty Supplier cell and every row of the
    transaction report a non-empty Reason cell. *)
Theorem defaulted_columns_never_blank (e : env) (pg : page) (w : world)
    (ps : list Product.t) (txs : list StockTransaction.t) :
  holds pg w ps txs ->
  exists low moves,
    built (buildLowStockReport pg) w low /\
    built (buildTransactionReport e pg) w moves /\
    Forall (fun r => cell r "Supplier" <> "") low /\
    Forall (fun r => cell r "Reason" <> "") moves.
Proof.
  intros H.
  exists (map low_stock_row (filter is_low_stock ps)),
         (map (transaction_row (toLocaleString e)) txs).
  split; [exact (built_low_stock pg w ps txs H)|].
  split; [exact (built_transaction pg w ps txs H e)|].
  split; apply Forall_map, Forall_forall; intros x _;
    apply or_default_not_empty; discriminate.
Qed.

Lemma defaulted_columns_never_blank_witness :
  holds (fst (mounted [blank_supplier] [sale]))
    (snd (mounted [blank_supplier] [sale])) [blank_supplier] [sale] /\
  exists low moves,
    built (buildLowStockReport (fst (mounted [blank_supplier] [sale])))
      (snd (mounted [blank_supplier] [sale])) low /\
    built (buildTransactionReport us_env (fst (mounted [blank_supplier] [sale])))
      (snd (mounted [blank_supplier] [sale])) moves /\
    Forall (fun r => cell r "Supplier" <> "") low /\
    Forall (fun r => cell r "Reason" <> "") moves.
Proof.
  split; [split; reflexivity|].
  apply (defaulted_columns_never_blank us_env _ _ [blank_supplier] [sale]).
  split; reflexivity.
Defined.

(** ** Summary figures against the reports *)

Lemma filter_length_le {A} (f : A -> bool) (l : list A) :
  (List.length (filter f l) <= List.length l)%nat.
Proof.
  induction l as [|a l IH]; cbn; [lia|]. destruct (f a); cbn; lia.
Qed.

Lemma filter_nil_iff {A} (f : A -> bool) (l : list A) :
  List.length (filter f l) = 0%nat <-> forall a, In a l -> f a = false.
Proof.
  induction l as [|a l IH]; cbn.
  - split; [intros _ x []|reflexivity].
  - destruct (f a) eqn:E; cbn.
    + split; [discriminate|]. intros H. specialize (H a (or_introl eq_refl)).
      congruence.
    + rewrite IH. split.
      * intros H x [<-|Hx]; [exact E|now apply H].
      * intros H x Hx. apply H. now right.
Qed.

Lemma activeProducts_split (ps : list Product.t) :
  activeProducts ps =
  (List.length (filter is_low_stock ps) +
   List.length (filter active_above ps))%nat.
Proof.
  unfold activeProducts.
  rewrite (filter_length_split
             (fun p => String.eqb (Product.status p) "Active")
             (fun p => Product.quantity p <=? Product.reorderLevel p)).
  f_equal. f_equal. apply filter_ext. intros p. apply andb_comm.
Qed.

(** X11.  The summary figures agree with the reports.  The low-stock report
    never has more rows than the "Active Products" figure, which never exceeds
    the number of products; the two are equal exactly when every "Active"
    product is at or below its reorder level.  "Total Transactions" is the
    number of rows of the transaction report, and the End of Day card's
    "Total Value" is the text in the Stock Value cell of the valuation report's
    TOTAL row. *)
Theorem summary_agrees_with_reports (e : env) (pg : page) (w : world)
    (ps : list Product.t) (txs : list StockTransaction.t) :
  holds pg w ps txs ->
  exists low moves body total,
    built (buildLowStockReport pg) w low /\
    built (buildTransactionReport e pg) w moves /\
    built (buildValuationReport pg) w (body ++ [total]) /\
    (List.length low <= activeProducts ps <= List.length ps)%nat /\
    (List.length low = activeProducts ps <->
     forall p, In p ps -> Product.status p = "Active" ->
               Product.quantity p <= Product.reorderLevel p) /\
    totalTransactions txs = List.length moves /\
    cell total "Stock Value" = totalValueCard ps.
Proof.
  intros H.
  exists (map low_stock_row (filter is_low_stock ps)),
         (map (transaction_row (toLocaleString e)) txs),
         (map valuation_row ps), (total_row ps).
  split; [exact (built_low_stock pg w ps txs H)|].
  split; [exact (built_transaction pg w ps txs H e)|].
  split; [exact (built_valuation pg w ps txs H)|].
  rewrite !length_map. pose proof (activeProducts_split ps) as Hs.
  split; [split; [lia|apply filter_length_le]|].
  split; [|split; [reflexivity|reflexivity]].
  rewrite Hs. split.
  - intros Heq p Hin Hst.
    assert (List.length (filter active_above ps) = 0%nat) as Hz by lia.
    pose proof (proj1 (filter_nil_iff _ _) Hz p Hin) as Hp.
    unfold active_above in Hp.
    apply String.eqb_eq in Hst. rewrite Hst in Hp. cbn [andb] in Hp.
    apply negb_false_iff in Hp. now apply Z.leb_le.
  - intros Hall.
    assert (List.length (filter active_above ps) = 0%nat) as Hz.
    { apply filter_nil_iff. intros p Hin. unfold active_above.
      destruct (String.eqb_spec (Product.status p) "Active") as [Hst|Hst];
        [|reflexivity].
      cbn [andb]. apply negb_false_iff, Z.leb_le. now apply Hall. }
    lia.
Qed.

Lemma summary_agrees_with_reports_witness :
  holds (fst (mounted fractional_prices [sale]))
    (snd (mounted fractional_prices [sale])) fractional_prices [sale] /\
  exists low moves body total,
    built (buildLowStockReport (fst (mounted fractional_prices [sale])))
      (snd (mounted fractional_prices [sale])) low /\
    built (buildTransactionReport some_env
             (fst (mounted fractional_prices [sale])))
      (snd (mounted fractional_prices [sale])) moves /\
    built (buildValuationReport (fst (mounted fractional_prices [sale])))
      (snd (mounted fractional_prices [sale])) (body ++ [total]) /\
    (List.length low <= activeProducts fractional_prices
     <= List.length fractional_prices)%nat /\
    totalTransactions [sale] = List.length moves /\
    cell total "Stock Value" = totalValueCard fractional_prices.
Proof.
  assert (holds (fst (mounted fractional_prices [sale]))
            (snd (mounted fractional_prices [sale])) fractional_prices [sale])
    as Hh by (split; reflexivity).
  destruct (summary_agrees_with_reports some_env _ _ _ _ Hh)
    as (low & moves & body & total & H1 & H2 & H3 & H4 & _ & H6 & H7).
  split; [exact Hh|]. exists low, moves, body, total.
  repeat split; try assumption; apply H4.
Defined.

(** ** File names *)

Lemma append_cancel_l (a x y : string) : a ++ x = a ++ y -> x = y.
Proof.
  induction a as [|c a IH]; cbn; [trivial|]. intros [= H]. now apply IH.
Qed.

Lemma length_append (a b : string) :
  String.length (a ++ b) = (String.length a + String.length b)%nat.
Proof. induction a as [|c a IH]; cbn; [reflexivity|]. now rewrite IH. Qed.

Lemma append_cancel_r (s x y : string) : x ++ s = y ++ s -> x = y.
Proof.
  revert y. induction x as [|c x IH]; intros [|d y] H.
  - reflexivity.
  - apply (f_equal String.length) in H. cbn in H.
    rewrite length_append in H. lia.
  - apply (f_equal String.length) in H. cbn in H.
    rewrite length_append in H. lia.
  - cbn in H. injection H as -> H. f_equal. now apply IH.
Qed.

Lemma file_name_inj (k k' : report_kind) (d d' : string) :
  report_id k ++ "_" ++ d ++ ".csv" = report_id k' ++ "_" ++ d' ++ ".csv" ->
  k = k' /\ d = d'.
Proof.
  intros H.
  assert (k = k') as <- by (destruct k, k'; first [reflexivity|discriminate H]).
  split; [reflexivity|].
  apply append_cancel_l in H. apply append_cancel_l in H.
  now apply append_cancel_r in H.
Qed.

(** X12.  A file name tells the report and the day apart: when two exports
    offer files under the same name, they are exports of the same report and
    their clocks read the same date.  Files of different reports, or of
    different days, never share a name. *)
Theorem file_names_distinct (k k' : report_kind) (e e' : env)
    (pg pg' : page) (w w' : world) (ps ps' : list Product.t)
    (txs txs' : list StockTransaction.t) :
  holds pg w ps txs ->
  holds pg' w' ps' txs' ->
  exists w1 w1' evs evs',
    action k e pg w = Some (tt, w1) /\ log w1 = (log w ++ evs)%list /\
    action k' e' pg' w' = Some (tt, w1') /\ log w1' = (log w' ++ evs')%list /\
    forall name mime mime' content content',
      In (Download name mime content) evs ->
      In (Download name mime' content') evs' ->
      k = k' /\ date_part e = date_part e'.
Proof.
  intros H H'. eexists. eexists. eexists. eexists.
  split; [exact (action_run k e pg w ps txs H)|]. split; [reflexivity|].
  split; [exact (action_run k' e' pg' w' ps' txs' H')|]. split; [reflexivity|].
  intros name mime mime' content content' Hin Hin'.
  apply export_events_download in Hin as (Hn & _).
  apply export_events_download in Hin' as (Hn' & _).
  apply file_name_inj. congruence.
Qed.

Lemma file_names_distinct_witness :
  holds (fst (mounted fractional_prices [])) (snd (mounted fractional_prices []))
    fractional_prices [] /\
  exists w1 w1' evs evs',
    action Inventory some_env (fst (mounted fractional_prices []))
      (snd (mounted fractional_prices [])) = Some (tt, w1) /\
    log w1 = (log (snd (mounted fractional_prices [])) ++ evs)%list /\
    action Inventory some_env (fst (mounted fractional_prices []))
      (snd (mounted fractional_prices [])) = Some (tt, w1') /\
    log w1' = (log (snd (mounted fractional_prices [])) ++ evs')%list /\
    forall name mime mime' content content',
      In (Download name mime content) evs ->
      In (Download name mime' content') evs' ->
      Inventory = Inventory /\ date_part some_env = date_part some_env.
Proof.
  assert (holds (fst (mounted fractional_prices []))
            (snd (mounted fractional_prices [])) fractional_prices [])
    as Hh by (split; reflexivity).
  split; [exact Hh|].
  exact (file_names_distinct Inventory Inventory some_env some_env
           _ _ _ _ _ _ _ _ Hh Hh).
Defined.
